(** * INEO labeling: a shallow embedding of [cronjob/ineo_labeling/ineo_labeling.py]

    The script reads a provider mapping (an XML document), fetches every
    record of a Solr index page by page, decides for each record whether it
    is an INEO record, and posts the decision back as a field update.

    The development follows the script function by function:
    - [Py]: the Python values a JSON document holds, Python's [==] and
      [in], [int(str)], [range], exceptions;
    - [ET]: the part of [xml.etree.ElementTree] the script calls;
    - [Provider], [Providers]: the classes of [ineo_classes];
    - the functions of the script under their own names. *)

From stdpp Require Import gmap strings list.
From Stdlib Require Import ZArith Ascii Permutation.

#[local] Set Warnings "-register-all".
Local Open Scope Z_scope.
Local Open Scope string_scope.
Local Open Scope list_scope.

(** ** Python values and exceptions *)

(** The values of a decoded JSON document that the script looks at: [None]
    (JSON null or a missing key read with [dict.get]), booleans, integers,
    strings and lists (a multi-valued index field).  Floats are left out:
    none of the fields the script reads is a float in the index's
    response. *)
Inductive value : Type :=
  | VNone
  | VBool (b : bool)
  | VInt (z : Z)
  | VStr (s : string)
  | VList (l : list value).

(** The exceptions the script can raise. [HTTPError] stands for what
    [response.raise_for_status()] raises. *)
Inductive exn : Type :=
  | ValueError
  | TypeError
  | KeyError
  | AttributeError
  | HTTPError.

Inductive result (A : Type) : Type :=
  | Ok (a : A)
  | Raise (e : exn).
Arguments Ok {A} a.
Arguments Raise {A} e.

(** Python's operations on these values. *)
Module Py.

Definition bind {A B} (m : result A) (k : A -> result B) : result B :=
  match m with
  | Ok a => k a
  | Raise e => Raise e
  end.

(** [x is None] *)
Definition is_none (v : value) : bool :=
  match v with VNone => true | _ => false end.

(** [bool] is a subclass of [int]: [True == 1] and [False == 0]. *)
Definition num (v : value) : option Z :=
  match v with
  | VBool b => Some (Z.b2z b)
  | VInt z => Some z
  | _ => None
  end.

(** Python's [==] on these values: [None] equals only [None], numbers
    compare by value, strings and lists compare with their own kind only,
    and values of different kinds are unequal (["0" == 0] is [False]). *)
Fixpoint eq (a b : value) {struct a} : bool :=
  match a, b with
  | VNone, VNone => true
  | VStr s, VStr t => String.eqb s t
  | VList xs, VList ys =>
      (fix eq_list (xs ys : list value) {struct xs} : bool :=
         match xs, ys with
         | [], [] => true
         | x :: xs', y :: ys' => eq x y && eq_list xs' ys'
         | _, _ => false
         end) xs ys
  | _, _ =>
      match num a, num b with
      | Some x, Some y => Z.eqb x y
      | _, _ => false
      end
  end.

(** [x in l] for a list [l]: some element equals [x]. *)
Definition contains (x : value) (l : list value) : bool :=
  existsb (eq x) l.

(** [d.get(key, None)] *)
Definition dict_get (d : gmap string value) (key : string) : value :=
  default VNone (d !! key).

(** [d[key]] *)
Definition dict_item (d : gmap string value) (key : string) : result value :=
  match d !! key with
  | Some v => Ok v
  | None => Raise KeyError
  end.

Definition of_str (o : option string) : value :=
  match o with Some s => VStr s | None => VNone end.

Definition of_int (o : option Z) : value :=
  match o with Some z => VInt z | None => VNone end.

(** *** [int(s)] for a string [s]

    Surrounding white space is stripped, one sign is allowed, and the
    digits may be separated by single underscores.  Only ASCII digits and
    white space are recognised here, and the interpreter's limit on the
    number of digits is left out. *)

Definition is_space (c : ascii) : bool :=
  let n := nat_of_ascii c in
  ((9 <=? n) && (n <=? 13) || (28 <=? n) && (n <=? 32))%nat.

Definition digit_of (c : ascii) : option Z :=
  let n := nat_of_ascii c in
  if ((48 <=? n) && (n <=? 57))%nat then Some (Z.of_nat n - 48) else None.

Fixpoint lstrip (l : list ascii) : list ascii :=
  match l with
  | c :: l' => if is_space c then lstrip l' else l
  | [] => []
  end.

Definition strip (l : list ascii) : list ascii :=
  rev (lstrip (rev (lstrip l))).

(** [after_us] records that the previous character was an underscore. *)
Fixpoint digits (acc : Z) (after_us : bool) (l : list ascii) : option Z :=
  match l with
  | [] => if after_us then None else Some acc
  | c :: l' =>
      match digit_of c with
      | Some d => digits (acc * 10 + d) false l'
      | None =>
          if Ascii.eqb c "_"%char && negb after_us then digits acc true l'
          else None
      end
  end.

Definition unsigned (l : list ascii) : option Z :=
  match l with
  | c :: l' =>
      match digit_of c with
      | Some d => digits d false l'
      | None => None
      end
  | [] => None
  end.

Definition int_of_string (s : string) : option Z :=
  match strip (String.list_ascii_of_string s) with
  | c :: l =>
      if Ascii.eqb c "-"%char then Z.opp <$> unsigned l
      else if Ascii.eqb c "+"%char then unsigned l
      else unsigned (c :: l)
  | [] => None
  end.

(** [int(x)] where [x] is the [text] of an element: [int(None)] is a
    [TypeError], a string that is no integer literal a [ValueError]. *)
Definition int (x : option string) : result Z :=
  match x with
  | None => Raise TypeError
  | Some s =>
      match int_of_string s with
      | Some z => Ok z
      | None => Raise ValueError
      end
  end.

(** [range(start, stop, step)] as a list, for [step > 0]. *)
Definition range (start stop step : Z) : list Z :=
  (fun i => start + i * step) <$> seqZ 0 ((stop - start + step - 1) `div` step).

End Py.

Notation "x <- m ; k" := (Py.bind m (fun x => k))
  (at level 100, m at next level, right associativity).


(** ** The XML element tree *)

(** An [xml.etree.ElementTree.Element]: tag, attribute dictionary, text and
    children in document order. *)
Inductive Element : Type :=
  mkElement (tag : string) (attrib : gmap string string)
            (text : option string) (children : list Element).

Module ET.

Definition tag (e : Element) : string :=
  match e with mkElement t _ _ _ => t end.

Definition attrib (e : Element) : gmap string string :=
  match e with mkElement _ a _ _ => a end.

(** [e.text] *)
Definition text (e : Element) : option string :=
  match e with mkElement _ _ t _ => t end.

Definition children (e : Element) : list Element :=
  match e with mkElement _ _ _ c => c end.

(** [e.get(key, None)] *)
Definition get (e : Element) (key : string) : option string :=
  attrib e !! key.

(** [e.findall(t)] for a plain tag name [t]: the children with that tag,
    in document order. *)
Definition findall (e : Element) (t : string) : list Element :=
  List.filter (fun c => String.eqb (tag c) t) (children e).

(** [e.find(t)]: the first such child, or [None]. *)
Definition find (e : Element) (t : string) : option Element :=
  List.find (fun c => String.eqb (tag c) t) (children e).

End ET.

(** ** The classes of [ineo_classes] *)

Module Provider.

(** Modelled from the spec: class [Provider] of [ineo_classes], which is
    imported by the script but is not part of the source at hand.  The
    fields are the keyword arguments [_add_provider] passes to the
    constructor, with the types of the values it passes. *)
Record t : Type := mk {
  name : option string;
  profile : option string;
  level : option Z;
  default : option bool;
}.

End Provider.

Module Providers.

(** Modelled from the spec: class [Providers] of [ineo_classes], not part
    of the source at hand.  The script assigns [default] and appends to the
    lists [providers] and [provider_keys]. *)
Record t : Type := mk {
  default : bool;
  providers : list Provider.t;
  provider_keys : list (option string);
}.

(** Modelled from the spec: the constructor [Providers()], taken to give an
    empty registry.  [parse_mapping_file] overwrites [default] before
    anything reads it. *)
Definition new : t :=
  {| default := false; providers := []; provider_keys := [] |}.

(** Modelled from the spec: the method [get_provider], which "returns the
    first rule whose name equals the argument, else null". *)
Definition get_provider (self : t) (provider_name : value) : option Provider.t :=
  List.find (fun p => Py.eq (Py.of_str (Provider.name p)) provider_name)
            (providers self).

End Providers.

(** [x.attr] where [x] may be [None]: reading an attribute of [None] is an
    [AttributeError]. *)
Definition deref {A} (x : option A) : result A :=
  match x with
  | Some a => Ok a
  | None => Raise AttributeError
  end.

(** [for x in l: body], the body reading and updating a state [S] and
    possibly raising. *)
Fixpoint for_each {A S} (l : list A) (body : S -> A -> result S) (s : S)
  : result S :=
  match l with
  | [] => Ok s
  | x :: l' => s' <- body s x; for_each l' body s'
  end.

(** ** Parsing the mapping file *)

(** [_add_provider(providers, provider)].  The object [providers] is
    updated in place by the two [append]s at the end; the function here
    returns the updated object.  [int(level_node.text)] may raise, before
    anything is appended. *)
Definition _add_provider (providers : Providers.t) (provider : Element)
  : result Providers.t :=
  let provider_name := ET.get provider "name" in
  let profile_node := ET.find provider "profile" in
  let provider_profile :=
    match profile_node with
    | None => None
    | Some profile_node => ET.text profile_node
    end in
  let level_node := ET.find provider "level" in
  provider_level <-
    match level_node with
    | None => Ok None
    | Some level_node => (z <- Py.int (ET.text level_node); Ok (Some z))
    end;
  let default_node := ET.find provider "default" in
  let provider_default :=
    match default_node with
    | None => None
    | Some default_node =>
        let provider_default := ET.text default_node in
        if Py.eq (Py.of_str provider_default) (VStr "true")
        then Some true else Some false
    end in
  let provider_obj :=
    {| Provider.name := provider_name;
       Provider.profile := provider_profile;
       Provider.level := provider_level;
       Provider.default := provider_default |} in
  Ok {| Providers.default := Providers.default providers;
        Providers.providers := Providers.providers providers ++ [provider_obj];
        Providers.provider_keys :=
          Providers.provider_keys providers ++ [provider_name] |}.

(** The local variables the first loop of [parse_mapping_file] binds;
    [None] is "not bound yet". *)
Record first_loop_locals : Type := {
  bound_provider : option Element;
  bound_provider_name : option (option string);
  bound_provider_profile : option (option string);
}.

(** The body of the first loop, lines 102 to 108. *)
Definition first_loop_body (_ : first_loop_locals) (provider : Element)
  : result first_loop_locals :=
  let provider_name := ET.get provider "name" in
  let profile_node := ET.find provider "profile" in
  let provider_profile :=
    match profile_node with
    | None => None
    | Some profile_node => ET.text profile_node
    end in
  Ok {| bound_provider := Some provider;
        bound_provider_name := Some provider_name;
        bound_provider_profile := Some provider_profile |}.

(** [a or b] for two lists. *)
Definition list_or {A} (a b : list A) : list A :=
  match a with [] => b | _ => a end.

(** The assignments to [providers.default], lines 95 to 99. *)
Definition set_default (providers : Providers.t) (mapping_tree : Element)
  : Providers.t :=
  let default := ET.get mapping_tree "default" in
  {| Providers.default :=
       if Py.eq (Py.of_str default) (VStr "true") then true else false;
     Providers.providers := Providers.providers providers;
     Providers.provider_keys := Providers.provider_keys providers |}.

(** [parse_mapping_file(mapping_tree)] *)
Definition parse_mapping_file (mapping_tree : Element) : result Providers.t :=
  let providers := Providers.new in
  let providers := set_default providers mapping_tree in
  _locals <-
    for_each (list_or (ET.findall mapping_tree "provider")
                      (ET.findall mapping_tree "root"))
             first_loop_body
             {| bound_provider := None; bound_provider_name := None;
                bound_provider_profile := None |};
  providers <-
    for_each (ET.findall mapping_tree "provider")
             _add_provider providers;
  providers <-
    for_each (ET.findall mapping_tree "root")
             _add_provider providers;
  Ok providers.

(** [parse_mapping_file] with its first loop deleted. *)
Definition parse_mapping_file_without_first_loop (mapping_tree : Element)
  : result Providers.t :=
  let providers := Providers.new in
  let providers := set_default providers mapping_tree in
  providers <-
    for_each (ET.findall mapping_tree "provider")
             _add_provider providers;
  providers <-
    for_each (ET.findall mapping_tree "root")
             _add_provider providers;
  Ok providers.

(** ** Resolving one record *)

(** [_is_ineo_record(doc, mapping)].  Every call
    [mapping.get_provider(provider_name)] has the same arguments and the
    registry is not changed in between, so the call is bound once, where
    line 183 first reads an attribute of its result. *)
Definition _is_ineo_record (doc : gmap string value) (mapping : Providers.t)
  : result bool :=
  let provider_name := Py.dict_get doc "dataProvider" in
  let provider_profile := Py.dict_get doc "_componentProfileId" in
  let provider_level := Py.dict_get doc "_hierarchyWeight" in
  if Py.is_none provider_name then Raise ValueError
  else if Py.contains provider_name
            (Py.of_str <$> Providers.provider_keys mapping) then
    rule <- deref (Providers.get_provider mapping provider_name);
    if negb (Py.is_none provider_profile)
       && negb (Py.is_none provider_profile)
       && Py.eq provider_profile (Py.of_str (Provider.profile rule))
    then Ok true
    else if negb (Py.is_none provider_level)
            && negb (Py.is_none provider_level)
            && Py.eq provider_level (Py.of_int (Provider.level rule))
    then Ok true
    else
      match Provider.default rule with
      | Some d => Ok d
      | None => Ok false
      end
  else Ok (Providers.default mapping).

(** ** The index and the requests sent to it *)

(** The value of [data["response"]] in the answer to a [select] request. *)
Record response : Type := {
  numFound : Z;
  docs : list (gmap string value);
}.

(** One entry of the update batch:
    [{"id": ..., "ineo_record": {"set": ...}}]. *)
Module UpdateDoc.

Record t : Type := mk {
  id : value;
  ineo_record : bool;
}.

End UpdateDoc.

(** The index behind [solr_url], [username] and [password], as the script
    sees it: what a [GET .../select] with the given query, [start] and
    [rows] gives after [raise_for_status()] and JSON decoding, and whether
    a [POST .../update] of a document succeeds. *)
Record Solr : Type := {
  select : string -> Z -> Z -> result response;
  update : UpdateDoc.t -> result unit;
}.

Inductive request : Type :=
  | GET_select (q : string) (start rows : Z)
  | POST_update (doc : UpdateDoc.t).

(** A computation that sends requests: the requests sent, in the order
    they are handed out, and the outcome. *)
Definition io (A : Type) : Type := (list request * result A)%type.

Definition io_ret {A} (a : A) : io A := ([], Ok a).

Definition io_lift {A} (r : result A) : io A := ([], r).

Definition io_bind {A B} (m : io A) (k : A -> io B) : io B :=
  match m with
  | (log, Ok a) => let '(log', r) := k a in (log ++ log', r)
  | (log, Raise e) => (log, Raise e)
  end.

Notation "x <<- m ; k" := (io_bind m (fun x => k))
  (at level 100, m at next level, right associativity).

(** A [ThreadPoolExecutor] used in a [with] block: every task handed to
    [submit] (or to [map], which submits all its tasks at once) runs to its
    end before the block is left, whatever happens to the other tasks.
    Each task gives a future, holding the task's value or the exception it
    raised. *)
Definition submit_all {A B} (task : A -> io B) (args : list A)
  : list request * list (result B) :=
  (concat (fst <$> (task <$> args)), snd <$> (task <$> args)).

(** [_fetch_solr_records(query, solr_url, username, password, start, rows)] *)
Definition _fetch_solr_records (query : string) (solr : Solr) (start rows : Z)
  : io response :=
  ([GET_select query start rows], select solr query start rows).

(** [for future in as_completed(futures): records.extend(future.result()["docs"])] *)
Definition extend_with (records : list (gmap string value))
    (future : result response) : result (list (gmap string value)) :=
  r <- future; Ok (records ++ docs r).

(** [fetch_solr_records(query, solr_url, username, password)].
    [as_completed] yields the futures in the order the pages arrive, which
    the script does not control: [completed] is that order. *)
Definition fetch_solr_records (query : string) (solr : Solr)
    (completed : list (result response) -> list (result response))
  : io (list (gmap string value)) :=
  response <<- _fetch_solr_records query solr 0 0;
  let total_records := numFound response in
  let records := [] in
  let '(sent, futures) :=
    submit_all (fun start => _fetch_solr_records query solr start 10000)
               (Py.range 0 total_records 10000) in
  (sent, for_each (completed futures) extend_with records).

(** [update_solr_records(doc, solr_url, username, password)] *)
Definition update_solr_records (solr : Solr) (doc : UpdateDoc.t) : io unit :=
  ([POST_update doc], update solr doc).

(** The loop state of [_label_ineo_records]. *)
Record labeling : Type := {
  good : Z;
  bad : Z;
  payload : list UpdateDoc.t;
}.

(** The body of the loop of [_label_ineo_records], lines 214 to 225.
    [doc['id']] is first read for the log line 214. *)
Definition label_one (mapping : Providers.t) (st : labeling)
    (doc : gmap string value) : result labeling :=
  doc_id <- Py.dict_item doc "id";
  ineo_record <- _is_ineo_record doc mapping;
  let good := if ineo_record then good st + 1 else good st in
  let bad := if ineo_record then bad st else bad st + 1 in
  Ok {| good := good; bad := bad;
        payload := payload st ++ [UpdateDoc.mk doc_id ineo_record] |}.

(** The loop of [_label_ineo_records] with its counters. *)
Definition label_loop (docs : list (gmap string value)) (mapping : Providers.t)
  : result labeling :=
  for_each docs (label_one mapping) {| good := 0; bad := 0; payload := [] |}.

(** [_label_ineo_records(docs, mapping)] *)
Definition _label_ineo_records (docs : list (gmap string value))
    (mapping : Providers.t) : result (list UpdateDoc.t) :=
  st <- label_loop docs mapping; Ok (payload st).

(** The futures [executor.map] creates in [label_ineo_records], one per
    entry of the update batch. *)
Definition update_futures (solr : Solr) (update_docs : list UpdateDoc.t)
  : list request * list (result unit) :=
  submit_all (update_solr_records solr) update_docs.

(** [label_ineo_records(query, solr_url, mapping)].  The iterator
    [executor.map] returns is not bound to a name and not iterated: the
    futures' results are not read. *)
Definition label_ineo_records (query : string) (solr : Solr)
    (mapping : Providers.t)
    (completed : list (result response) -> list (result response))
  : io unit :=
  docs <<- fetch_solr_records query solr completed;
  update_docs <<- io_lift (_label_ineo_records docs mapping);
  let '(sent, _futures) := update_futures solr update_docs in
  (sent, Ok tt).

(** ** The entry point *)

(** [main()].  [fetch_mapping_file(INEO_MAPPING)] downloads the mapping
    and decodes it with [ET.fromstring]; [mapping_file] is what that call
    gives, an element tree or an exception.  The requests recorded are
    those sent to the index. *)
Definition main (mapping_file : result Element) (solr : Solr)
    (completed : list (result response) -> list (result response))
  : io unit :=
  mapping_tree <<- io_lift mapping_file;
  providers <<- io_lift (parse_mapping_file mapping_tree);
  label_ineo_records "*:*" solr providers completed.

(** ** Notions used to state the properties *)

(** The two lists of a registry go in step: [_add_provider] appends to
    both. *)
Definition well_formed (mapping : Providers.t) : Prop :=
  Providers.provider_keys mapping
  = Provider.name <$> Providers.providers mapping.

(** The record's [dataProvider] is present, is among the registry's keys,
    and [rule] is the rule the registry gives for it. *)
Definition names_rule (doc : gmap string value) (mapping : Providers.t)
    (rule : Provider.t) : Prop :=
  Py.is_none (Py.dict_get doc "dataProvider") = false
  /\ Py.contains (Py.dict_get doc "dataProvider")
       (Py.of_str <$> Providers.provider_keys mapping) = true
  /\ Providers.get_provider mapping (Py.dict_get doc "dataProvider")
     = Some rule.

(** The guard of line 186, on the record's profile and a rule. *)
Definition profile_test (provider_profile : value) (rule : Provider.t) : bool :=
  negb (Py.is_none provider_profile)
  && negb (Py.is_none provider_profile)
  && Py.eq provider_profile (Py.of_str (Provider.profile rule)).

(** The guard of line 191, on the record's level and a rule. *)
Definition level_test (provider_level : value) (rule : Provider.t) : bool :=
  negb (Py.is_none provider_level)
  && negb (Py.is_none provider_level)
  && Py.eq provider_level (Py.of_int (Provider.level rule)).

(** Step 4a as the specification words it: the rule's profile is
    non-null, the record's profile is non-null, and they are equal. *)
Definition profile_test_guarded (recordProfile : value) (rule : Provider.t)
  : bool :=
  negb (Py.is_none (Py.of_str (Provider.profile rule)))
  && negb (Py.is_none recordProfile)
  && Py.eq recordProfile (Py.of_str (Provider.profile rule)).

(** Step 4b with both null tests, under the same exact equality. *)
Definition level_test_guarded (recordLevel : value) (rule : Provider.t)
  : bool :=
  negb (Py.is_none (Py.of_int (Provider.level rule)))
  && negb (Py.is_none recordLevel)
  && Py.eq recordLevel (Py.of_int (Provider.level rule)).

(** The resolver as the specification's steps 1 to 4 word it, every guard
    testing both sides for null, equality being the exact one. *)
Definition resolve_guarded (record : gmap string value) (registry : Providers.t)
  : result bool :=
  let providerName := Py.dict_get record "dataProvider" in
  let recordProfile := Py.dict_get record "_componentProfileId" in
  let recordLevel := Py.dict_get record "_hierarchyWeight" in
  if Py.is_none providerName then Raise ValueError
  else
    match Providers.get_provider registry providerName with
    | None => Ok (Providers.default registry)
    | Some rule =>
        if profile_test_guarded recordProfile rule then Ok true
        else if level_test_guarded recordLevel rule then Ok true
        else
          match Provider.default rule with
          | Some d => Ok d
          | None => Ok false
          end
    end.

(** A record's profile matches a rule: both are strings, and the same. *)
Definition profile_matches (doc : gmap string value) (rule : Provider.t) : bool :=
  match Provider.profile rule, Py.dict_get doc "_componentProfileId" with
  | Some p, VStr s => String.eqb s p
  | _, _ => false
  end.

(** A record's level matches a rule: the record's level is a number, the
    rule has a level, and the two are the same number. *)
Definition level_matches (doc : gmap string value) (rule : Provider.t) : bool :=
  match Provider.level rule, Py.num (Py.dict_get doc "_hierarchyWeight") with
  | Some l, Some z => Z.eqb z l
  | _, _ => false
  end.

(** The number a level stands for once it is brought to one numeric type,
    as the specification asks: a number is itself, a string is the integer
    it spells. *)
Definition normalized_level (v : value) : option Z :=
  match v with
  | VStr s => Py.int_of_string s
  | _ => Py.num v
  end.

(** The level step as the specification words it: the rule's level and
    the record's level are non-null and equal once normalized. *)
Definition level_matches_normalized (doc : gmap string value)
    (rule : Provider.t) : bool :=
  match Provider.level rule,
        normalized_level (Py.dict_get doc "_hierarchyWeight") with
  | Some l, Some z => Z.eqb z l
  | _, _ => false
  end.

(** The fallback of lines 197 to 200. *)
Definition rule_default (rule : Provider.t) : bool :=
  match Provider.default rule with
  | Some d => d
  | None => false
  end.

(** An index that holds the records [all] and answers every [select] with
    the slice asked for; updates succeed. *)
Definition index_of (all : list (gmap string value)) : Solr :=
  {| select := fun _ start rows =>
       Ok {| numFound := Z.of_nat (length all);
             docs := take (Z.to_nat rows) (drop (Z.to_nat start) all) |};
     update := fun _ => Ok tt |}.

(** The same index, refusing every update. *)
Definition read_only_index_of (all : list (gmap string value)) : Solr :=
  {| select := select (index_of all);
     update := fun _ => Raise HTTPError |}.

(** A field that is absent from the record or holds JSON null. *)
Definition missing (doc : gmap string value) (key : string) : Prop :=
  doc !! key = None \/ doc !! key = Some VNone.

(** The level step as the specification words it, normalizing both
    levels before comparing them. *)
Definition level_step_normalizes : Prop :=
  forall (doc : gmap string value) (mapping : Providers.t) (rule : Provider.t),
    names_rule doc mapping rule ->
    level_matches_normalized doc rule = true ->
    _is_ineo_record doc mapping = Ok true.

(** The labeling pass recovering from the records it cannot resolve, as
    the specification words it: the pass returns an update batch, and every
    record of the input that resolves is in it with its decision. *)
Definition recovers_locally (docs : list (gmap string value))
    (mapping : Providers.t) : Prop :=
  exists batch : list UpdateDoc.t,
    _label_ineo_records docs mapping = Ok batch
    /\ forall doc i b,
         doc ∈ docs ->
         doc !! "id" = Some i ->
         _is_ineo_record doc mapping = Ok b ->
         UpdateDoc.mk i b ∈ batch.

(** The number of futures that hold an exception. *)
Definition failed {A} (futures : list (result A)) : nat :=
  length (List.filter (fun f => match f with Raise _ => true | Ok _ => false end)
                      futures).

(** Failed updates being observed, as the specification words it: what
    [label_ineo_records] gives back tells how many updates failed. *)
Definition update_failures_observed : Prop :=
  exists report : io unit -> nat,
    forall query solr mapping completed sent docs batch,
      fetch_solr_records query solr completed = (sent, Ok docs) ->
      _label_ineo_records docs mapping = Ok batch ->
      report (label_ineo_records query solr mapping completed)
      = failed (snd (update_futures solr batch)).

(** The records at positions [lo] to [hi - 1] of the index. *)
Definition slice (all : list (gmap string value)) (lo hi : Z)
  : list (gmap string value) :=
  take (Z.to_nat (hi - lo)) (drop (Z.to_nat lo) all).

(** The [level] child of a [provider] or [root] element, when there is
    one, holds an integer. *)
Definition level_ok (e : Element) : Prop :=
  forall n, ET.find e "level" = Some n -> exists z, Py.int (ET.text n) = Ok z.

(** The elements [parse_mapping_file] turns into rules, in the order it
    takes them. *)
Definition rule_elements (mapping_tree : Element) : list Element :=
  ET.findall mapping_tree "provider" ++ ET.findall mapping_tree "root".

(** The entry of the update batch for one record: its [id] and the
    resolver's decision. *)
Definition label_doc (mapping : Providers.t) (doc : gmap string value)
  : result UpdateDoc.t :=
  doc_id <- Py.dict_item doc "id";
  ineo_record <- _is_ineo_record doc mapping;
  Ok (UpdateDoc.mk doc_id ineo_record).

(** [f] over a list from left to right, stopping at the first exception. *)
Fixpoint map_result {A B} (f : A -> result B) (l : list A) : result (list B) :=
  match l with
  | [] => Ok []
  | x :: l' => y <- f x; ys <- map_result f l'; Ok (y :: ys)
  end.

(** The number of entries of a batch with the given decision. *)
Definition decided (b : bool) (batch : list UpdateDoc.t) : Z :=
  Z.of_nat (length (List.filter
                      (fun u => Bool.eqb (UpdateDoc.ineo_record u) b) batch)).

(** The loop state of [_label_ineo_records] after a further batch. *)
Definition tally (st : labeling) (batch : list UpdateDoc.t) : labeling :=
  {| good := good st + decided true batch;
     bad := bad st + decided false batch;
     payload := payload st ++ batch |}.

(** [doc] is labeled by the batch entry [u]. *)
Definition labels (mapping : Providers.t) (doc : gmap string value)
    (u : UpdateDoc.t) : Prop :=
  doc !! "id" = Some (UpdateDoc.id u)
  /\ _is_ineo_record doc mapping = Ok (UpdateDoc.ineo_record u).

(** The page requests for [total_records] records found. *)
Definition page_requests (query : string) (total_records : Z) : list request :=
  (fun start => GET_select query start 10000)
    <$> Py.range 0 total_records 10000.

(** ** Sample inputs *)

Module Sample.

(** An element without attributes or children, such as
    [<level>0</level>]. *)
Definition leaf (t : string) (txt : string) : Element :=
  mkElement t ∅ (Some txt) [].

(** [<datasets default="false">
       <provider name="The Language Archive"><level>0</level></provider>
       <provider name="DANS"><default>true</default></provider>
       <provider name="Meertens"><profile>p_1</profile></provider>
     </datasets>], after the example in the docstring of
    [parse_mapping_file]. *)
Definition mapping_tree : Element :=
  mkElement "datasets" {[ "default" := "false" ]} None
    [ mkElement "provider" {[ "name" := "The Language Archive" ]} None
        [ leaf "level" "0" ];
      mkElement "provider" {[ "name" := "DANS" ]} None
        [ leaf "default" "true" ];
      mkElement "provider" {[ "name" := "Meertens" ]} None
        [ leaf "profile" "p_1" ] ].

Definition tla : Provider.t :=
  {| Provider.name := Some "The Language Archive"; Provider.profile := None;
     Provider.level := Some 0; Provider.default := None |}.

Definition dans : Provider.t :=
  {| Provider.name := Some "DANS"; Provider.profile := None;
     Provider.level := None; Provider.default := Some true |}.

Definition meertens : Provider.t :=
  {| Provider.name := Some "Meertens"; Provider.profile := Some "p_1";
     Provider.level := None; Provider.default := None |}.

(** What [parse_mapping_file] makes of [mapping_tree]. *)
Definition mapping : Providers.t :=
  {| Providers.default := false;
     Providers.providers := [tla; dans; meertens];
     Providers.provider_keys :=
       [Some "The Language Archive"; Some "DANS"; Some "Meertens"] |}.

Definition record (i : string) (fields : list (string * value))
  : gmap string value :=
  <["id" := VStr i]> (list_to_map fields).

(** A record of a registered provider whose level came as the string "0". *)
Definition level_as_string : gmap string value :=
  record "r1" [("dataProvider", VStr "The Language Archive");
               ("_hierarchyWeight", VStr "0")].

(** The same record with the level as the integer 0. *)
Definition level_as_int : gmap string value :=
  record "r2" [("dataProvider", VStr "The Language Archive");
               ("_hierarchyWeight", VInt 0)].

Definition with_profile : gmap string value :=
  record "r3" [("dataProvider", VStr "Meertens");
               ("_componentProfileId", VStr "p_1")].

Definition other_level : gmap string value :=
  record "r4" [("dataProvider", VStr "DANS"); ("_hierarchyWeight", VInt 5)].

Definition unknown_provider : gmap string value :=
  record "r5" [("dataProvider", VStr "Unknown")].

(** A record without [dataProvider]. *)
Definition no_provider : gmap string value :=
  record "r6" [("_hierarchyWeight", VInt 0)].

End Sample.

(** * Properties *)

(** ** Python equality against a rule's fields *)

Lemma eq_of_str_sym (o : option string) (v : value) :
  Py.eq (Py.of_str o) v = Py.eq v (Py.of_str o).
Proof.
  destruct o as [s|], v as [|b|z|t|l]; simpl; try reflexivity.
  apply String.eqb_sym.
Qed.

(** A value that is not [None] never equals [None]. *)
Lemma eq_none_r (v : value) :
  Py.is_none v = false -> Py.eq v VNone = false.
Proof. destruct v as [|b|z|t|l]; simpl; try done. Qed.

Lemma profile_test_spec (doc : gmap string value) (rule : Provider.t) :
  profile_test (Py.dict_get doc "_componentProfileId") rule
  = profile_matches doc rule.
Proof.
  unfold profile_test, profile_matches.
  destruct (Py.dict_get doc "_componentProfileId") as [|b|z|t|l],
           (Provider.profile rule) as [p|]; simpl; reflexivity.
Qed.

Lemma level_test_spec (doc : gmap string value) (rule : Provider.t) :
  level_test (Py.dict_get doc "_hierarchyWeight") rule
  = level_matches doc rule.
Proof.
  unfold level_test, level_matches.
  destruct (Py.dict_get doc "_hierarchyWeight") as [|b|z|t|l],
           (Provider.level rule) as [n|]; simpl; reflexivity.
Qed.

Lemma profile_test_guarded_eq (v : value) (rule : Provider.t) :
  profile_test v rule = profile_test_guarded v rule.
Proof.
  unfold profile_test, profile_test_guarded.
  destruct (Provider.profile rule) as [p|]; simpl.
  - destruct (Py.is_none v); reflexivity.
  - destruct (Py.is_none v) eqn:E; simpl; [reflexivity|].
    by apply eq_none_r.
Qed.

Lemma level_test_guarded_eq (v : value) (rule : Provider.t) :
  level_test v rule = level_test_guarded v rule.
Proof.
  unfold level_test, level_test_guarded.
  destruct (Provider.level rule) as [n|]; simpl.
  - destruct (Py.is_none v); reflexivity.
  - destruct (Py.is_none v) eqn:E; simpl; [reflexivity|].
    by apply eq_none_r.
Qed.

(** A level matching as a number also matches once normalized: a record
    whose level does not match after normalization does not match for the
    code either. *)
Lemma level_matches_normalized_of (doc : gmap string value) (rule : Provider.t) :
  level_matches doc rule = true -> level_matches_normalized doc rule = true.
Proof.
  unfold level_matches, level_matches_normalized, normalized_level.
  destruct (Provider.level rule) as [n|]; [|done].
  destruct (Py.dict_get doc "_hierarchyWeight"); simpl; done.
Qed.

(** ** The resolver on a registered provider *)

(** With the record's provider registered, the resolver is the
    disjunction of its three steps. *)
Lemma _is_ineo_record_registered (doc : gmap string value)
    (mapping : Providers.t) (rule : Provider.t) :
  names_rule doc mapping rule ->
  _is_ineo_record doc mapping
  = Ok (profile_matches doc rule || level_matches doc rule || rule_default rule).
Proof.
  intros (Hname & Hkey & Hget).
  rewrite <- profile_test_spec, <- level_test_spec.
  unfold _is_ineo_record, profile_test, level_test, rule_default.
  rewrite Hname, Hkey, Hget. simpl.
  repeat match goal with |- context [if ?c then _ else _] => destruct c end;
    destruct (Provider.default rule) as [[]|]; reflexivity.
Qed.

(** ** Registries built by the parser *)

Lemma _add_provider_well_formed (providers providers' : Providers.t)
    (provider : Element) :
  well_formed providers ->
  _add_provider providers provider = Ok providers' ->
  well_formed providers'.
Proof.
  unfold well_formed, _add_provider. intros Hwf H.
  destruct (ET.find provider "level") as [n|]; simpl in H.
  - destruct (Py.int (ET.text n)); simpl in H; [|discriminate].
    injection H as <-. simpl. rewrite fmap_app, Hwf. reflexivity.
  - injection H as <-. simpl. rewrite fmap_app, Hwf. reflexivity.
Qed.

Lemma for_each_add_provider_well_formed (l : list Element) :
  forall providers providers',
    well_formed providers ->
    for_each l _add_provider providers = Ok providers' ->
    well_formed providers'.
Proof.
  induction l as [|e l IH]; simpl; intros providers providers' Hwf H.
  - by injection H as <-.
  - destruct (_add_provider providers e) as [p1|] eqn:E; simpl in H;
      [|discriminate].
    eapply IH; [|exact H]. eapply _add_provider_well_formed; eauto.
Qed.

(** Only local variables change in the first loop, and it cannot raise. *)
Lemma first_loop_returns (l : list Element) :
  forall locals, exists locals', for_each l first_loop_body locals = Ok locals'.
Proof.
  induction l as [|e l IH]; simpl; intros locals; eauto.
Qed.

(** Every registry the parser returns is well formed. *)
Lemma parse_mapping_file_well_formed (mapping_tree : Element)
    (mapping : Providers.t) :
  parse_mapping_file mapping_tree = Ok mapping -> well_formed mapping.
Proof.
  unfold parse_mapping_file. intros H.
  destruct (first_loop_returns
              (list_or (ET.findall mapping_tree "provider")
                       (ET.findall mapping_tree "root"))
              {| bound_provider := None; bound_provider_name := None;
                 bound_provider_profile := None |}) as [locals' Hloop].
  rewrite Hloop in H. simpl in H.
  destruct (for_each (ET.findall mapping_tree "provider") _add_provider _)
    as [p1|] eqn:E1; simpl in H; [|discriminate].
  destruct (for_each (ET.findall mapping_tree "root") _add_provider p1)
    as [p2|] eqn:E2; simpl in H; [|discriminate].
  injection H as <-.
  eapply for_each_add_provider_well_formed; [|exact E2].
  eapply for_each_add_provider_well_formed; [|exact E1].
  reflexivity.
Qed.

(** In a well-formed registry the key test of line 182 and [get_provider]
    agree. *)
Lemma contains_get_provider (mapping : Providers.t) (v : value) :
  well_formed mapping ->
  Py.contains v (Py.of_str <$> Providers.provider_keys mapping)
  = bool_decide (is_Some (Providers.get_provider mapping v)).
Proof.
  unfold well_formed, Providers.get_provider, Py.contains. intros ->.
  induction (Providers.providers mapping) as [|p l IH]; simpl; [done|].
  rewrite <- eq_of_str_sym.
  destruct (Py.eq (Py.of_str (Provider.name p)) v); simpl.
  - reflexivity.
  - exact IH.
Qed.

Lemma names_rule_well_formed (doc : gmap string value)
    (mapping : Providers.t) (rule : Provider.t) :
  well_formed mapping ->
  Py.is_none (Py.dict_get doc "dataProvider") = false ->
  Providers.get_provider mapping (Py.dict_get doc "dataProvider") = Some rule ->
  names_rule doc mapping rule.
Proof.
  intros Hwf Hname Hget. repeat split; try done.
  rewrite contains_get_provider, Hget by done.
  apply bool_decide_eq_true_2. eauto.
Qed.

Lemma is_none_dict_get (doc : gmap string value) (key : string) :
  Py.is_none (Py.dict_get doc key) = true <-> missing doc key.
Proof.
  unfold Py.dict_get, missing.
  destruct (doc !! key) as [v|]; simpl.
  - destruct v; simpl; split; try discriminate; auto;
      intros [H|H]; discriminate.
  - split; auto.
Qed.

Lemma not_missing_dict_get (doc : gmap string value) (key : string) :
  ~ missing doc key -> Py.is_none (Py.dict_get doc key) = false.
Proof.
  intros H. destruct (Py.is_none (Py.dict_get doc key)) eqn:E; [|done].
  by apply is_none_dict_get in E.
Qed.

(** The resolver on a well-formed registry follows the specification's
    steps, with the tests of lines 186 and 191. *)
Lemma _is_ineo_record_steps (doc : gmap string value) (mapping : Providers.t) :
  well_formed mapping ->
  _is_ineo_record doc mapping
  = if Py.is_none (Py.dict_get doc "dataProvider") then Raise ValueError
    else match Providers.get_provider mapping (Py.dict_get doc "dataProvider") with
         | None => Ok (Providers.default mapping)
         | Some rule =>
             if profile_test (Py.dict_get doc "_componentProfileId") rule
             then Ok true
             else if level_test (Py.dict_get doc "_hierarchyWeight") rule
             then Ok true
             else match Provider.default rule with
                  | Some d => Ok d
                  | None => Ok false
                  end
         end.
Proof.
  intros Hwf. unfold _is_ineo_record.
  rewrite contains_get_provider by done.
  destruct (Py.is_none (Py.dict_get doc "dataProvider")); [reflexivity|].
  destruct (Providers.get_provider mapping _) as [rule|]; reflexivity.
Qed.

(** ** The claims on the resolver *)

(** C4. A record whose [dataProvider] names a rule with a non-null
    profile equal to the record's [_componentProfileId] is an INEO record,
    whatever the rule's level and default and whatever the global default
    are. *)
Theorem profile_match_returns_true (doc : gmap string value)
    (mapping : Providers.t) (rule : Provider.t) (p : string) :
  names_rule doc mapping rule ->
  Provider.profile rule = Some p ->
  Py.dict_get doc "_componentProfileId" = VStr p ->
  _is_ineo_record doc mapping = Ok true.
Proof.
  intros Hrule Hp Hdoc.
  rewrite (_is_ineo_record_registered _ _ _ Hrule).
  unfold profile_matches. rewrite Hp, Hdoc, String.eqb_refl. reflexivity.
Qed.

Lemma profile_match_returns_true_witness :
  names_rule Sample.with_profile Sample.mapping Sample.meertens
  /\ _is_ineo_record Sample.with_profile Sample.mapping = Ok true.
Proof.
  assert (H : names_rule Sample.with_profile Sample.mapping Sample.meertens)
    by (repeat split; vm_compute; reflexivity).
  split; [exact H|].
  apply (profile_match_returns_true Sample.with_profile Sample.mapping
           Sample.meertens "p_1" H); vm_compute; reflexivity.
Defined.

(** C5. A record of a registered provider that matches neither the rule's
    profile nor the rule's level gets the rule's default [D] when the rule
    has one, true or false, and [False] when it has none. *)
Theorem no_match_returns_rule_default (doc : gmap string value)
    (mapping : Providers.t) (rule : Provider.t) :
  names_rule doc mapping rule ->
  profile_matches doc rule = false ->
  level_matches doc rule = false ->
  (forall D, Provider.default rule = Some D ->
             _is_ineo_record doc mapping = Ok D)
  /\ (Provider.default rule = None -> _is_ineo_record doc mapping = Ok false).
Proof.
  intros Hrule Hp Hl.
  rewrite (_is_ineo_record_registered _ _ _ Hrule), Hp, Hl.
  unfold rule_default. split; [intros D ->|intros ->]; reflexivity.
Qed.

Lemma no_match_returns_rule_default_witness :
  _is_ineo_record Sample.other_level Sample.mapping = Ok true.
Proof.
  refine (proj1 (no_match_returns_rule_default Sample.other_level
                   Sample.mapping Sample.dans _ _ _) true _);
    try (repeat split; vm_compute; reflexivity).
Defined.

(** C6. A record whose [dataProvider] is present and is not among the
    registry's keys gets the registry's global default, whatever its
    [_componentProfileId] and [_hierarchyWeight] are. *)
Theorem unregistered_returns_global_default (doc : gmap string value)
    (mapping : Providers.t) :
  ~ missing doc "dataProvider" ->
  Py.contains (Py.dict_get doc "dataProvider")
    (Py.of_str <$> Providers.provider_keys mapping) = false ->
  _is_ineo_record doc mapping = Ok (Providers.default mapping).
Proof.
  intros Hname Hkey. apply not_missing_dict_get in Hname.
  unfold _is_ineo_record. rewrite Hname, Hkey. reflexivity.
Qed.

Lemma unregistered_returns_global_default_witness :
  _is_ineo_record Sample.unknown_provider Sample.mapping = Ok false.
Proof.
  apply (unregistered_returns_global_default Sample.unknown_provider
           Sample.mapping).
  - intros [H|H]; vm_compute in H; discriminate.
  - vm_compute; reflexivity.
Defined.

(** C7. On a registry built by the parser, resolving a record raises
    exactly when the record's [dataProvider] is null or absent, and what it
    raises is the [ValueError] of line 179; with the field present it
    returns a boolean. *)
Theorem raises_iff_provider_missing (doc : gmap string value)
    (mapping : Providers.t) :
  well_formed mapping ->
  (missing doc "dataProvider" ->
   _is_ineo_record doc mapping = Raise ValueError)
  /\ (~ missing doc "dataProvider" ->
      exists b : bool, _is_ineo_record doc mapping = Ok b)
  /\ ((exists e, _is_ineo_record doc mapping = Raise e)
      <-> missing doc "dataProvider").
Proof.
  intros Hwf.
  assert (Hraise : missing doc "dataProvider" ->
                   _is_ineo_record doc mapping = Raise ValueError).
  { intros H. rewrite (_is_ineo_record_steps _ _ Hwf).
    apply is_none_dict_get in H. rewrite H. reflexivity. }
  assert (Hbool : Py.is_none (Py.dict_get doc "dataProvider") = false ->
                  exists b : bool, _is_ineo_record doc mapping = Ok b).
  { intros H. rewrite (_is_ineo_record_steps _ _ Hwf), H.
    destruct (Providers.get_provider mapping _) as [rule|]; [|eauto].
    destruct (profile_test _ rule); [eauto|].
    destruct (level_test _ rule); [eauto|].
    destruct (Provider.default rule); eauto. }
  split; [exact Hraise|]. split.
  - intros H. apply Hbool. by apply not_missing_dict_get.
  - split; [|eauto]. intros [e He].
    destruct (Py.is_none (Py.dict_get doc "dataProvider")) eqn:E.
    + by apply is_none_dict_get.
    + destruct (Hbool eq_refl) as [b Hb]. congruence.
Qed.

Lemma raises_iff_provider_missing_witness :
  well_formed Sample.mapping
  /\ _is_ineo_record Sample.no_provider Sample.mapping = Raise ValueError.
Proof.
  assert (H : well_formed Sample.mapping) by reflexivity.
  split; [exact H|].
  apply (proj1 (raises_iff_provider_missing Sample.no_provider
                  Sample.mapping H)).
  left. vm_compute. reflexivity.
Defined.

(** C1, as the code has it. For a record of a registered provider: when
    the rule has a level and the record's [_hierarchyWeight] is a number
    equal to it, the resolver returns [True]; the comparison is Python's
    [==] with no normalization, so a [_hierarchyWeight] that is a string
    never matches, and the record then falls through to the rule's
    default unless its profile matched. *)
Theorem level_match_returns_true (doc : gmap string value)
    (mapping : Providers.t) (rule : Provider.t) :
  names_rule doc mapping rule ->
  (forall l, Provider.level rule = Some l ->
             Py.num (Py.dict_get doc "_hierarchyWeight") = Some l ->
             _is_ineo_record doc mapping = Ok true)
  /\ (forall s, Py.dict_get doc "_hierarchyWeight" = VStr s ->
                _is_ineo_record doc mapping
                = Ok (profile_matches doc rule || rule_default rule)).
Proof.
  intros Hrule. rewrite (_is_ineo_record_registered _ _ _ Hrule). split.
  - intros l Hl Hnum. unfold level_matches. rewrite Hl, Hnum, Z.eqb_refl.
    by rewrite orb_true_r.
  - intros s Hs. unfold level_matches. rewrite Hs. simpl.
    destruct (Provider.level rule); by rewrite orb_false_r.
Qed.

Lemma level_match_returns_true_witness :
  names_rule Sample.level_as_int Sample.mapping Sample.tla
  /\ _is_ineo_record Sample.level_as_int Sample.mapping = Ok true.
Proof.
  assert (H : names_rule Sample.level_as_int Sample.mapping Sample.tla)
    by (repeat split; vm_compute; reflexivity).
  split; [exact H|].
  apply (proj1 (level_match_returns_true Sample.level_as_int Sample.mapping
                  Sample.tla H) 0); vm_compute; reflexivity.
Defined.

(** Counterexample to C1 as the specification words it: the registry parsed from
    the sample mapping has the rule "The Language Archive" with level 0 and
    no default; a record of that provider whose level is the string "0"
    matches after normalization, and the resolver returns [False]. *)
Lemma level_as_string_is_not_matched :
  parse_mapping_file Sample.mapping_tree = Ok Sample.mapping
  /\ names_rule Sample.level_as_string Sample.mapping Sample.tla
  /\ level_matches_normalized Sample.level_as_string Sample.tla = true
  /\ _is_ineo_record Sample.level_as_string Sample.mapping = Ok false
  /\ ~ level_step_normalizes.
Proof.
  assert (Hrule : names_rule Sample.level_as_string Sample.mapping Sample.tla)
    by (repeat split; vm_compute; reflexivity).
  assert (Hnorm : level_matches_normalized Sample.level_as_string Sample.tla
                  = true) by (vm_compute; reflexivity).
  assert (Hres : _is_ineo_record Sample.level_as_string Sample.mapping
                 = Ok false) by (vm_compute; reflexivity).
  repeat split; try assumption; try (vm_compute; reflexivity).
  intros Hclaim. specialize (Hclaim _ _ _ Hrule Hnorm).
  rewrite Hres in Hclaim. discriminate.
Qed.

(** C10. The guards of lines 186 and 191 test the record's value twice
    and the rule's value not at all, and still compute what the fully
    guarded steps compute under the same exact equality: a rule without a
    profile (or level) never passes the profile (or level) test, the two
    tests equal their guarded forms, and on a registry built by the parser
    the resolver equals the specification's steps 1 to 4. *)
Theorem unguarded_tests_equal_guarded (mapping : Providers.t) :
  well_formed mapping ->
  (forall v rule, Provider.profile rule = None -> profile_test v rule = false)
  /\ (forall v rule, Provider.level rule = None -> level_test v rule = false)
  /\ (forall v rule, profile_test v rule = profile_test_guarded v rule)
  /\ (forall v rule, level_test v rule = level_test_guarded v rule)
  /\ (forall doc, _is_ineo_record doc mapping = resolve_guarded doc mapping).
Proof.
  intros Hwf. repeat split.
  - intros v rule H. rewrite profile_test_guarded_eq.
    unfold profile_test_guarded. by rewrite H.
  - intros v rule H. rewrite level_test_guarded_eq.
    unfold level_test_guarded. by rewrite H.
  - apply profile_test_guarded_eq.
  - apply level_test_guarded_eq.
  - intros doc. rewrite (_is_ineo_record_steps _ _ Hwf).
    unfold resolve_guarded.
    destruct (Py.is_none (Py.dict_get doc "dataProvider")); [reflexivity|].
    destruct (Providers.get_provider mapping _) as [rule|]; [|reflexivity].
    by rewrite profile_test_guarded_eq, level_test_guarded_eq.
Qed.

Lemma unguarded_tests_equal_guarded_witness :
  well_formed Sample.mapping
  /\ _is_ineo_record Sample.with_profile Sample.mapping
     = resolve_guarded Sample.with_profile Sample.mapping.
Proof.
  assert (H : well_formed Sample.mapping) by reflexivity.
  split; [exact H|].
  apply (unguarded_tests_equal_guarded Sample.mapping H).
Defined.

(** ** The parser's first loop *)

Lemma for_each_app {A S} (body : S -> A -> result S) (l1 l2 : list A) :
  forall s, for_each (l1 ++ l2) body s
            = (s' <- for_each l1 body s; for_each l2 body s').
Proof.
  induction l1 as [|x l1 IH]; simpl; intros s; [reflexivity|].
  destruct (body s x) as [s1|e]; simpl; [apply IH|reflexivity].
Qed.

Lemma bind_ok_r {A} (m : result A) : (a <- m; Ok a) = m.
Proof. destruct m; reflexivity. Qed.

(** C9. The first loop of [parse_mapping_file] has no effect on what the
    function returns or raises: the function equals the one with the loop
    deleted, which is the root's [default] attribute followed by
    [_add_provider] over all [provider] elements and then all [root]
    elements, in document order. *)
Theorem first_loop_has_no_effect (mapping_tree : Element) :
  parse_mapping_file mapping_tree
  = parse_mapping_file_without_first_loop mapping_tree
  /\ parse_mapping_file mapping_tree
     = for_each (ET.findall mapping_tree "provider"
                 ++ ET.findall mapping_tree "root")
                _add_provider (set_default Providers.new mapping_tree).
Proof.
  assert (H : parse_mapping_file mapping_tree
              = parse_mapping_file_without_first_loop mapping_tree).
  { unfold parse_mapping_file, parse_mapping_file_without_first_loop.
    destruct (first_loop_returns
                (list_or (ET.findall mapping_tree "provider")
                         (ET.findall mapping_tree "root"))
                {| bound_provider := None; bound_provider_name := None;
                   bound_provider_profile := None |}) as [locals' Hloop].
    rewrite Hloop. reflexivity. }
  split; [exact H|]. rewrite H.
  unfold parse_mapping_file_without_first_loop.
  rewrite for_each_app.
  destruct (for_each (ET.findall mapping_tree "provider") _ _); simpl;
    [apply bind_ok_r|reflexivity].
Qed.

(** ** The labeling pass *)

Lemma label_one_missing_provider (mapping : Providers.t) (st : labeling)
    (doc : gmap string value) :
  missing doc "dataProvider" ->
  label_one mapping st doc
  = match doc !! "id" with
    | Some _ => Raise ValueError
    | None => Raise KeyError
    end.
Proof.
  intros H. apply is_none_dict_get in H.
  unfold label_one, Py.dict_item, _is_ineo_record.
  destruct (doc !! "id"); simpl; [|reflexivity].
  rewrite H. reflexivity.
Qed.

(** C2, as the code has it. A record without [dataProvider] makes the
    labeling pass raise: no update batch is returned, whatever records
    follow.  When the records before it were labeled and it has an [id],
    the exception is the [ValueError] of its own resolution. *)
Theorem missing_provider_aborts_labeling
    (before after : list (gmap string value)) (doc : gmap string value)
    (mapping : Providers.t) :
  missing doc "dataProvider" ->
  (exists e, _label_ineo_records (before ++ doc :: after) mapping = Raise e)
  /\ (forall st, label_loop before mapping = Ok st ->
                 is_Some (doc !! "id") ->
                 _label_ineo_records (before ++ doc :: after) mapping
                 = Raise ValueError).
Proof.
  intros Hmiss. unfold _label_ineo_records, label_loop.
  rewrite for_each_app. split.
  - destruct (for_each before _ _) as [st|e]; simpl; [|eauto].
    rewrite (label_one_missing_provider _ _ _ Hmiss).
    destruct (doc !! "id"); simpl; eauto.
  - intros st -> [i Hid]. simpl.
    rewrite (label_one_missing_provider _ _ _ Hmiss), Hid. reflexivity.
Qed.

Lemma missing_provider_aborts_labeling_witness :
  missing Sample.no_provider "dataProvider"
  /\ _label_ineo_records
       ([Sample.level_as_int] ++ Sample.no_provider :: [Sample.with_profile])
       Sample.mapping = Raise ValueError.
Proof.
  assert (H : missing Sample.no_provider "dataProvider")
    by (left; vm_compute; reflexivity).
  split; [exact H|].
  eapply (proj2 (missing_provider_aborts_labeling [Sample.level_as_int]
                   [Sample.with_profile] Sample.no_provider Sample.mapping H)).
  - vm_compute. reflexivity.
  - vm_compute. eauto.
Defined.

(** Counterexample to C2 as the specification words it: of three records, the
    second without [dataProvider], the first and third resolve, and the
    pass returns no batch at all. *)
Lemma labeling_does_not_recover :
  _is_ineo_record Sample.level_as_int Sample.mapping = Ok true
  /\ _is_ineo_record Sample.with_profile Sample.mapping = Ok true
  /\ missing Sample.no_provider "dataProvider"
  /\ _label_ineo_records
       [Sample.level_as_int; Sample.no_provider; Sample.with_profile]
       Sample.mapping = Raise ValueError
  /\ ~ recovers_locally
         [Sample.level_as_int; Sample.no_provider; Sample.with_profile]
         Sample.mapping.
Proof.
  assert (H : _label_ineo_records
                [Sample.level_as_int; Sample.no_provider; Sample.with_profile]
                Sample.mapping = Raise ValueError)
    by (vm_compute; reflexivity).
  refine (conj _ (conj _ (conj _ (conj H _)))).
  - vm_compute. reflexivity.
  - vm_compute. reflexivity.
  - left. vm_compute. reflexivity.
  - intros (batch & Hbatch & _). rewrite H in Hbatch. discriminate.
Qed.

(** ** The update step *)

Lemma update_futures_sent (solr : Solr) (batch : list UpdateDoc.t) :
  fst (update_futures solr batch) = POST_update <$> batch.
Proof.
  unfold update_futures, submit_all. cbn [fst].
  induction batch as [|d batch IH]; [reflexivity|].
  rewrite !fmap_cons. cbn [concat update_solr_records fst app].
  f_equal. exact IH.
Qed.

Lemma update_futures_outcomes (solr : Solr) (batch : list UpdateDoc.t) :
  snd (update_futures solr batch) = update solr <$> batch.
Proof.
  unfold update_futures, submit_all. cbn [snd].
  induction batch as [|d batch IH]; [reflexivity|].
  rewrite !fmap_cons. cbn [update_solr_records snd].
  f_equal. exact IH.
Qed.

(** C3, as the code has it. Once the records are fetched and labeled,
    every decision of the batch is sent as an update request of its own,
    each future holding the outcome of its own request whatever the
    outcomes of the others; the futures are not read, and the function
    returns [None] whether updates failed or not. *)
Theorem updates_are_sent_and_outcomes_dropped (query : string) (solr : Solr)
    (mapping : Providers.t)
    (completed : list (result response) -> list (result response))
    (sent : list request) (docs : list (gmap string value))
    (batch : list UpdateDoc.t) :
  fetch_solr_records query solr completed = (sent, Ok docs) ->
  _label_ineo_records docs mapping = Ok batch ->
  label_ineo_records query solr mapping completed
  = (sent ++ (POST_update <$> batch), Ok tt)
  /\ snd (update_futures solr batch) = update solr <$> batch.
Proof.
  intros Hfetch Hlabel. split; [|apply update_futures_outcomes].
  unfold label_ineo_records. rewrite Hfetch. unfold io_bind at 1.
  rewrite Hlabel. unfold io_lift, io_bind.
  pose proof (update_futures_sent solr batch) as Hsent.
  destruct (update_futures solr batch) as [sent' futures]. simpl in Hsent.
  by rewrite Hsent.
Qed.

Lemma updates_are_sent_and_outcomes_dropped_witness :
  label_ineo_records "*:*"
    (read_only_index_of [Sample.level_as_int; Sample.with_profile])
    Sample.mapping id
  = ([GET_select "*:*" 0 0; GET_select "*:*" 0 10000]
     ++ (POST_update <$> [UpdateDoc.mk (VStr "r2") true;
                          UpdateDoc.mk (VStr "r3") true]),
     Ok tt).
Proof.
  apply (updates_are_sent_and_outcomes_dropped "*:*"
           (read_only_index_of [Sample.level_as_int; Sample.with_profile])
           Sample.mapping id
           [GET_select "*:*" 0 0; GET_select "*:*" 0 10000]
           [Sample.level_as_int; Sample.with_profile]
           [UpdateDoc.mk (VStr "r2") true; UpdateDoc.mk (VStr "r3") true]).
  - vm_compute. reflexivity.
  - vm_compute. reflexivity.
Defined.

(** Counterexample to C3 as the specification words it: over the same two records,
    an index that refuses every update and one that accepts every update
    make [label_ineo_records] give back the same thing, though two updates
    failed on the first and none on the second. *)
Lemma failed_updates_are_not_observed :
  let all := [Sample.level_as_int; Sample.with_profile] in
  let batch := [UpdateDoc.mk (VStr "r2") true; UpdateDoc.mk (VStr "r3") true] in
  _label_ineo_records all Sample.mapping = Ok batch
  /\ snd (update_futures (read_only_index_of all) batch)
     = [Raise HTTPError; Raise HTTPError]
  /\ snd (update_futures (index_of all) batch) = [Ok tt; Ok tt]
  /\ label_ineo_records "*:*" (read_only_index_of all) Sample.mapping id
     = label_ineo_records "*:*" (index_of all) Sample.mapping id
  /\ ~ update_failures_observed.
Proof.
  intros all batch.
  refine (conj _ (conj _ (conj _ (conj _ _)))); try (vm_compute; reflexivity).
  intros [report Hreport].
  pose proof (Hreport "*:*" (read_only_index_of all) Sample.mapping id
                [GET_select "*:*" 0 0; GET_select "*:*" 0 10000] all batch)
    as H1.
  pose proof (Hreport "*:*" (index_of all) Sample.mapping id
                [GET_select "*:*" 0 0; GET_select "*:*" 0 10000] all batch)
    as H2.
  assert (E : label_ineo_records "*:*" (read_only_index_of all) Sample.mapping id
              = label_ineo_records "*:*" (index_of all) Sample.mapping id)
    by (vm_compute; reflexivity).
  rewrite E in H1. rewrite H2 in H1 by (vm_compute; reflexivity).
  specialize (H1 ltac:(vm_compute; reflexivity) ltac:(vm_compute; reflexivity)).
  vm_compute in H1. discriminate.
Qed.

(** ** Fetching the records *)

Lemma for_each_extend_with (rs : list response) :
  forall records,
    for_each (Ok <$> rs) extend_with records
    = Ok (records ++ concat (docs <$> rs)).
Proof.
  induction rs as [|r rs IH]; intros records.
  - simpl. by rewrite app_nil_r.
  - rewrite !fmap_cons. simpl. rewrite IH. by rewrite <- app_assoc.
Qed.

(** Whatever the order the pages arrive in, the pages that arrive are the
    pages asked for. *)
Lemma completed_pages
    (completed : list (result response) -> list (result response))
    (rs : list response) :
  (forall futures, completed futures ≡ₚ futures) ->
  exists rs', completed (Ok <$> rs) = Ok <$> rs' /\ rs' ≡ₚ rs.
Proof.
  intros Hperm.
  destruct (Permutation_map_inv Ok rs (Hperm (Ok <$> rs)))
    as (rs' & Heq & Hrs).
  exists rs'. split; [exact Heq|by symmetry].
Qed.

Lemma slice_length (all : list (gmap string value)) (lo hi : Z) :
  0 <= lo <= hi -> hi <= Z.of_nat (length all) ->
  Z.of_nat (length (slice all lo hi)) = hi - lo.
Proof.
  intros Hlo Hhi. unfold slice. rewrite length_take, length_drop. lia.
Qed.

(** C8. With 25000 records found and the index answering every page
    request with the slice asked for, the fetch sends the zero-row request
    and then exactly three page requests, at [start] 0, 10000 and 20000
    with [rows] 10000; the pages hold the records [0,10000),
    [10000,20000) and [20000,25000); and whatever order the pages arrive
    in, the merged result is the 25000 records. *)
Theorem fetch_25000_in_three_pages (query : string) (solr : Solr)
    (all : list (gmap string value))
    (completed : list (result response) -> list (result response)) :
  Z.of_nat (length all) = 25000 ->
  (forall start rows,
     select solr query start rows = select (index_of all) query start rows) ->
  (forall futures, completed futures ≡ₚ futures) ->
  fst (fetch_solr_records query solr completed)
  = [GET_select query 0 0; GET_select query 0 10000;
     GET_select query 10000 10000; GET_select query 20000 10000]
  /\ snd (submit_all (fun start => _fetch_solr_records query solr start 10000)
                     (Py.range 0 25000 10000))
     = [Ok {| numFound := 25000; docs := slice all 0 10000 |};
        Ok {| numFound := 25000; docs := slice all 10000 20000 |};
        Ok {| numFound := 25000; docs := slice all 20000 25000 |}]
  /\ exists records,
       snd (fetch_solr_records query solr completed) = Ok records
       /\ records ≡ₚ all
       /\ Z.of_nat (length records) = 25000.
Proof.
  intros Hlen Hsel Hperm.
  assert (Hrange : Py.range 0 25000 10000 = [0; 10000; 20000])
    by (vm_compute; reflexivity).
  assert (Hpages :
    snd (submit_all (fun start => _fetch_solr_records query solr start 10000)
                    [0; 10000; 20000])
    = Ok <$> [ {| numFound := 25000; docs := slice all 0 10000 |};
               {| numFound := 25000; docs := slice all 10000 20000 |};
               {| numFound := 25000; docs := slice all 20000 25000 |} ]).
  { unfold submit_all, _fetch_solr_records. cbn [snd fmap list_fmap].
    rewrite !Hsel. unfold index_of. cbn [select]. rewrite Hlen.
    unfold slice.
    replace (take (Z.to_nat 10000) (drop (Z.to_nat 20000) all))
      with (take (Z.to_nat (25000 - 20000)) (drop (Z.to_nat 20000) all)).
    - reflexivity.
    - rewrite !take_ge; [reflexivity| |]; rewrite length_drop; lia. }
  assert (Hall : slice all 0 10000 ++ slice all 10000 20000
                 ++ slice all 20000 25000 = all).
  { unfold slice.
    replace (Z.to_nat (25000 - 20000)) with (length all - Z.to_nat 20000)%nat
      by lia.
    rewrite (take_ge (drop (Z.to_nat 20000) all))
      by (rewrite length_drop; lia).
    change (Z.to_nat 0) with 0%nat. rewrite drop_0.
    replace (Z.to_nat 20000) with (Z.to_nat 10000 + Z.to_nat 10000)%nat by lia.
    replace (Z.to_nat (10000 - 0)) with (Z.to_nat 10000) by lia.
    replace (Z.to_nat (20000 - 10000)) with (Z.to_nat 10000) by lia.
    rewrite <- drop_drop. rewrite !take_drop. reflexivity. }
  destruct (completed_pages completed
              [ {| numFound := 25000; docs := slice all 0 10000 |};
                {| numFound := 25000; docs := slice all 10000 20000 |};
                {| numFound := 25000; docs := slice all 20000 25000 |} ]
              Hperm) as (rs' & Hcompleted & Hrs').
  assert (Hfetch : fetch_solr_records query solr completed
                   = ([GET_select query 0 0; GET_select query 0 10000;
                       GET_select query 10000 10000;
                       GET_select query 20000 10000],
                      Ok (concat (docs <$> rs')))).
  { unfold fetch_solr_records, io_bind.
    unfold _fetch_solr_records at 1. rewrite Hsel. unfold index_of at 1.
    cbn [select numFound]. rewrite Hlen, Hrange.
    pose proof Hpages as Hpages'.
    unfold submit_all in Hpages' |- *. cbn [snd] in Hpages'.
    rewrite Hpages', Hcompleted, for_each_extend_with.
    reflexivity. }
  rewrite Hfetch, Hrange, Hpages. cbn [fst snd].
  split; [reflexivity|]. split; [reflexivity|].
  eexists. split; [reflexivity|].
  assert (Hmerged : concat (docs <$> rs') ≡ₚ all).
  { rewrite Hrs'. cbn [fmap list_fmap concat docs]. rewrite app_nil_r.
    by rewrite Hall. }
  split.
  - exact Hmerged.
  - rewrite Hmerged. exact Hlen.
Qed.

Lemma fetch_25000_in_three_pages_witness :
  let all := replicate (Z.to_nat 25000) Sample.level_as_int in
  Z.of_nat (length all) = 25000
  /\ fst (fetch_solr_records "*:*" (index_of all) (fun futures => futures))
     = [GET_select "*:*" 0 0; GET_select "*:*" 0 10000;
        GET_select "*:*" 10000 10000; GET_select "*:*" 20000 10000].
Proof.
  intros all.
  assert (Hlen : Z.of_nat (length all) = 25000)
    by (unfold all; rewrite length_replicate; lia).
  split; [exact Hlen|].
  apply (fetch_25000_in_three_pages "*:*" (index_of all) all
           (fun futures => futures) Hlen).
  - intros start rows. reflexivity.
  - intros futures. reflexivity.
Defined.

(** ** The embedding on the examples of the documentation *)

Example parse_sample :
  parse_mapping_file Sample.mapping_tree = Ok Sample.mapping.
Proof. vm_compute. reflexivity. Qed.

(** A [level] that is no integer makes the parser raise. *)
Example parse_bad_level :
  parse_mapping_file
    (mkElement "datasets" ∅ None
       [mkElement "root" {[ "name" := "X" ]} None [Sample.leaf "level" "top"]])
  = Raise ValueError.
Proof. vm_compute. reflexivity. Qed.

Example int_examples :
  Py.int_of_string " -1_000 " = Some (-1000)
  /\ Py.int_of_string "+007" = Some 7
  /\ Py.int_of_string "1__0" = None
  /\ Py.int_of_string "" = None
  /\ Py.int_of_string "1.5" = None.
Proof. repeat split; reflexivity. Qed.

Example range_examples :
  Py.range 0 25000 10000 = [0; 10000; 20000]
  /\ Py.range 0 20000 10000 = [0; 10000]
  /\ Py.range 0 0 10000 = [].
Proof. repeat split; reflexivity. Qed.

Example eq_examples :
  Py.eq (VStr "0") (VInt 0) = false
  /\ Py.eq (VBool true) (VInt 1) = true
  /\ Py.eq (VList [VInt 1; VStr "a"]) (VList [VBool true; VStr "a"]) = true
  /\ Py.eq VNone (VInt 0) = false.
Proof. repeat split; reflexivity. Qed.

(** The labeling pass on records that all resolve. *)
Example label_sample :
  _label_ineo_records
    [Sample.level_as_int; Sample.with_profile; Sample.other_level;
     Sample.unknown_provider] Sample.mapping
  = Ok [UpdateDoc.mk (VStr "r2") true; UpdateDoc.mk (VStr "r3") true;
        UpdateDoc.mk (VStr "r4") true; UpdateDoc.mk (VStr "r5") false].
Proof. vm_compute. reflexivity. Qed.

(** * Further properties of the script *)

(** ** The parser *)

(** The parser as one loop over the [provider] elements followed by the
    [root] elements. *)
Lemma parse_mapping_file_fold (mapping_tree : Element) :
  parse_mapping_file mapping_tree
  = for_each (rule_elements mapping_tree) _add_provider
             (set_default Providers.new mapping_tree).
Proof.
  unfold parse_mapping_file, rule_elements.
  destruct (first_loop_returns
              (list_or (ET.findall mapping_tree "provider")
                       (ET.findall mapping_tree "root"))
              {| bound_provider := None; bound_provider_name := None;
                 bound_provider_profile := None |}) as [locals' Hloop].
  rewrite Hloop, for_each_app. cbn [Py.bind].
  destruct (for_each (ET.findall mapping_tree "provider") _ _); simpl;
    [apply bind_ok_r|reflexivity].
Qed.

Lemma _add_provider_ok (providers : Providers.t) (e : Element) :
  level_ok e ->
  exists rule,
    Provider.name rule = ET.get e "name"
    /\ _add_provider providers e
       = Ok {| Providers.default := Providers.default providers;
               Providers.providers := Providers.providers providers ++ [rule];
               Providers.provider_keys :=
                 Providers.provider_keys providers ++ [ET.get e "name"] |}.
Proof.
  unfold level_ok, _add_provider. intros Hok.
  destruct (ET.find e "level") as [n|].
  - destruct (Hok n eq_refl) as [z ->]. simpl.
    eexists. split; [|reflexivity]. reflexivity.
  - simpl. eexists. split; [|reflexivity]. reflexivity.
Qed.


Lemma _add_provider_level_ok (providers providers' : Providers.t) (e : Element) :
  _add_provider providers e = Ok providers' -> level_ok e.
Proof.
  unfold level_ok, _add_provider. intros H n Hn. rewrite Hn in H.
  destruct (Py.int (ET.text n)) as [z|x]; [eauto|discriminate].
Qed.

Lemma for_each_add_provider_ok (l : list Element) :
  forall providers,
    Forall level_ok l ->
    exists providers',
      for_each l _add_provider providers = Ok providers'
      /\ Providers.default providers' = Providers.default providers
      /\ Providers.provider_keys providers'
         = Providers.provider_keys providers
           ++ ((fun e => ET.get e "name") <$> l)
      /\ Provider.name <$> Providers.providers providers'
         = (Provider.name <$> Providers.providers providers)
           ++ ((fun e => ET.get e "name") <$> l).
Proof.
  induction l as [|e l IH]; intros providers Hok.
  - exists providers. simpl. by rewrite !app_nil_r.
  - apply Forall_cons in Hok as [He Hl].
    destruct (_add_provider_ok providers e He) as (rule & Hname & Hadd).
    destruct (IH {| Providers.default := Providers.default providers;
                    Providers.providers :=
                      Providers.providers providers ++ [rule];
                    Providers.provider_keys :=
                      Providers.provider_keys providers ++ [ET.get e "name"] |}
                 Hl) as (providers' & Hfor & Hd & Hk & Hn).
    exists providers'. simpl. rewrite Hadd. simpl.
    split; [exact Hfor|]. split; [exact Hd|]. split.
    + rewrite Hk. simpl. by rewrite <- app_assoc.
    + rewrite Hn. simpl. rewrite fmap_app. simpl.
      by rewrite Hname, <- app_assoc.
Qed.

Lemma for_each_add_provider_level_ok (l : list Element) :
  forall providers providers',
    for_each l _add_provider providers = Ok providers' ->
    Forall level_ok l.
Proof.
  induction l as [|e l IH]; simpl; intros providers providers' H;
    [constructor|].
  destruct (_add_provider providers e) as [p1|] eqn:E; [|discriminate].
  constructor; [eapply _add_provider_level_ok|eapply IH]; eauto.
Qed.

(** X1. A registry the parser returns has one rule per [provider] and
    [root] element: the rules' names, and the keys, are the [name]
    attributes of all [provider] elements followed by those of all [root]
    elements, in document order. *)
Theorem parse_mapping_file_names (mapping_tree : Element)
    (mapping : Providers.t) :
  parse_mapping_file mapping_tree = Ok mapping ->
  Providers.provider_keys mapping
  = (fun e => ET.get e "name") <$> rule_elements mapping_tree
  /\ Provider.name <$> Providers.providers mapping
     = (fun e => ET.get e "name") <$> rule_elements mapping_tree
  /\ length (Providers.providers mapping)
     = length (rule_elements mapping_tree).
Proof.
  rewrite parse_mapping_file_fold. intros H.
  pose proof (for_each_add_provider_level_ok _ _ _ H) as Hok.
  destruct (for_each_add_provider_ok _ (set_default Providers.new mapping_tree)
              Hok) as (m & Hm & _ & Hk & Hn).
  rewrite Hm in H. injection H as <-. simpl in Hk, Hn.
  split; [exact Hk|]. split; [exact Hn|].
  rewrite <- (length_fmap Provider.name), Hn. apply length_fmap.
Qed.

Lemma parse_mapping_file_names_witness :
  Providers.provider_keys Sample.mapping
  = (fun e => ET.get e "name") <$> rule_elements Sample.mapping_tree.
Proof.
  apply (parse_mapping_file_names Sample.mapping_tree Sample.mapping).
  vm_compute. reflexivity.
Defined.




(** X4. The global default of a parsed registry is [True] exactly when
    the root element's [default] attribute is the string "true"; any other
    value, and a missing attribute, give [False]. *)
Theorem parse_mapping_file_default (mapping_tree : Element)
    (mapping : Providers.t) :
  parse_mapping_file mapping_tree = Ok mapping ->
  (Providers.default mapping = true
   <-> ET.get mapping_tree "default" = Some "true").
Proof.
  rewrite parse_mapping_file_fold. intros H.
  pose proof (for_each_add_provider_level_ok _ _ _ H) as Hok.
  destruct (for_each_add_provider_ok _ (set_default Providers.new mapping_tree)
              Hok) as (m & Hm & Hd & _).
  rewrite Hm in H. injection H as <-. rewrite Hd. simpl.
  destruct (ET.get mapping_tree "default") as [d|]; simpl.
  - destruct (String.eqb d "true") eqn:E.
    + apply String.eqb_eq in E. subst. done.
    + apply String.eqb_neq in E. split; [done|]. intros [= ->]. done.
  - split; discriminate.
Qed.

Lemma parse_mapping_file_default_witness :
  Providers.default Sample.mapping = true
  <-> ET.get Sample.mapping_tree "default" = Some "true".
Proof.
  apply (parse_mapping_file_default Sample.mapping_tree Sample.mapping).
  vm_compute. reflexivity.
Defined.

(** ** The resolver *)

(** X5. The resolver reads three fields of the record and nothing else:
    two records that agree on [dataProvider], [_componentProfileId] and
    [_hierarchyWeight] get the same decision, or raise alike, whatever
    their [id] and other fields are. *)
Theorem _is_ineo_record_reads_three_fields (doc1 doc2 : gmap string value)
    (mapping : Providers.t) :
  Py.dict_get doc1 "dataProvider" = Py.dict_get doc2 "dataProvider" ->
  Py.dict_get doc1 "_componentProfileId"
  = Py.dict_get doc2 "_componentProfileId" ->
  Py.dict_get doc1 "_hierarchyWeight" = Py.dict_get doc2 "_hierarchyWeight" ->
  _is_ineo_record doc1 mapping = _is_ineo_record doc2 mapping.
Proof.
  intros Hn Hp Hl. unfold _is_ineo_record. rewrite Hn, Hp, Hl. reflexivity.
Qed.

Lemma _is_ineo_record_reads_three_fields_witness :
  _is_ineo_record Sample.level_as_int Sample.mapping
  = _is_ineo_record (<["extra" := VInt 7]> (<["id" := VStr "other"]>
                       Sample.level_as_int)) Sample.mapping.
Proof.
  apply _is_ineo_record_reads_three_fields; vm_compute; reflexivity.
Defined.

Lemma contains_not_string (v : value) (keys : list (option string)) :
  Py.is_none v = false ->
  (forall s, v <> VStr s) ->
  Py.contains v (Py.of_str <$> keys) = false.
Proof.
  intros Hnone Hstr. unfold Py.contains.
  induction keys as [|k keys IH]; [reflexivity|].
  rewrite fmap_cons. simpl. rewrite IH, orb_false_r.
  destruct v as [|b|z|s|l]; try discriminate;
    try (destruct k; reflexivity).
  by destruct (Hstr s).
Qed.

(** X6. A record whose [dataProvider] is present but is not a string (a
    number, a boolean, or the list of a multi-valued field) is never
    registered: it gets the global default, whatever the registry's rules
    are. *)
Theorem non_string_provider_gets_global_default (doc : gmap string value)
    (mapping : Providers.t) :
  ~ missing doc "dataProvider" ->
  (forall s, Py.dict_get doc "dataProvider" <> VStr s) ->
  _is_ineo_record doc mapping = Ok (Providers.default mapping).
Proof.
  intros Hmiss Hstr. apply not_missing_dict_get in Hmiss.
  unfold _is_ineo_record.
  by rewrite Hmiss, (contains_not_string _ _ Hmiss Hstr).
Qed.

Lemma non_string_provider_gets_global_default_witness :
  _is_ineo_record
    (Sample.record "r7" [("dataProvider", VList [VStr "DANS"])])
    Sample.mapping
  = Ok false.
Proof.
  apply (non_string_provider_gets_global_default
           (Sample.record "r7" [("dataProvider", VList [VStr "DANS"])])
           Sample.mapping).
  - intros [H|H]; vm_compute in H; discriminate.
  - intros s H. vm_compute in H. discriminate.
Defined.

(** X7. For a record of a registered provider the resolver always
    returns a boolean, and that boolean is [True] exactly when the profile
    matches, or the level matches as a number, or the rule's default is
    [True]. *)
Theorem registered_record_is_ineo_iff (doc : gmap string value)
    (mapping : Providers.t) (rule : Provider.t) :
  names_rule doc mapping rule ->
  (exists b : bool, _is_ineo_record doc mapping = Ok b)
  /\ (_is_ineo_record doc mapping = Ok true
      <-> profile_matches doc rule = true
          \/ level_matches doc rule = true
          \/ Provider.default rule = Some true).
Proof.
  intros Hrule. rewrite (_is_ineo_record_registered _ _ _ Hrule).
  split; [eauto|]. unfold rule_default.
  destruct (profile_matches doc rule), (level_matches doc rule),
           (Provider.default rule) as [[]|]; simpl; split; auto;
    intros H; try discriminate;
    destruct H as [H|[H|H]]; discriminate.
Qed.

Lemma registered_record_is_ineo_iff_witness :
  exists b : bool, _is_ineo_record Sample.other_level Sample.mapping = Ok b.
Proof.
  apply (registered_record_is_ineo_iff Sample.other_level Sample.mapping
           Sample.dans).
  repeat split; vm_compute; reflexivity.
Defined.

Lemma find_snoc {A} (f : A -> bool) (l : list A) (x : A) :
  List.find f (l ++ [x])
  = match List.find f l with
    | Some y => Some y
    | None => if f x then Some x else None
    end.
Proof.
  induction l as [|a l IH]; simpl; [reflexivity|].
  destruct (f a); [reflexivity|exact IH].
Qed.

Lemma contains_snoc (v : value) (keys : list (option string))
    (k : option string) :
  Py.contains v (Py.of_str <$> (keys ++ [k]))
  = Py.contains v (Py.of_str <$> keys) || Py.eq v (Py.of_str k).
Proof.
  unfold Py.contains. rewrite fmap_app, existsb_app. simpl.
  by rewrite orb_false_r.
Qed.

Lemma eq_of_str_true (v : value) (k : option string) :
  Py.is_none v = false ->
  Py.eq v (Py.of_str k) = true -> exists n, k = Some n /\ v = VStr n.
Proof.
  intros Hnone H. destruct k as [n|].
  - destruct v as [|b|z|s|l]; simpl in H; try discriminate.
    apply String.eqb_eq in H. subst. eauto.
  - apply eq_none_r in Hnone. simpl in H. congruence.
Qed.

(** What adding one rule changes for a record: nothing, when the record's
    provider is not the rule's name or is already registered. *)
Lemma _add_provider_same (providers providers' : Providers.t) (e : Element)
    (doc : gmap string value) :
  _add_provider providers e = Ok providers' ->
  Py.eq (Py.dict_get doc "dataProvider") (Py.of_str (ET.get e "name")) = false
  \/ Py.is_none (Py.dict_get doc "dataProvider") = true
  \/ is_Some (Providers.get_provider providers (Py.dict_get doc "dataProvider"))
     /\ Py.contains (Py.dict_get doc "dataProvider")
          (Py.of_str <$> Providers.provider_keys providers) = true ->
  _is_ineo_record doc providers' = _is_ineo_record doc providers.
Proof.
  intros Hadd Hcase.
  destruct (_add_provider_ok providers e (_add_provider_level_ok _ _ _ Hadd))
    as (rule & Hname & Hadd').
  rewrite Hadd' in Hadd. injection Hadd as <-.
  unfold _is_ineo_record, Providers.get_provider. cbn [Providers.default
    Providers.providers Providers.provider_keys].
  set (v := Py.dict_get doc "dataProvider") in *.
  destruct (Py.is_none v) eqn:Hnone; [reflexivity|].
  rewrite contains_snoc, find_snoc, Hname, eq_of_str_sym.
  destruct Hcase as [Heq|[Hn|[[r Hr] Hc]]].
  - rewrite Heq, orb_false_r.
    by destruct (List.find _ (Providers.providers providers)).
  - discriminate.
  - unfold Providers.get_provider in Hr. rewrite Hr, Hc. reflexivity.
Qed.

(** X8. Adding the rule of a further element to the registry changes
    nothing for the records of other providers: a record whose
    [dataProvider] is not the string the element's [name] attribute holds
    is resolved as before, and an element without [name] changes the
    resolution of no record. ([get_provider] is the first rule of a
    name.) *)
Theorem added_rule_leaves_other_providers (providers providers' : Providers.t)
    (e : Element) (doc : gmap string value) :
  _add_provider providers e = Ok providers' ->
  (forall n, ET.get e "name" = Some n ->
             Py.dict_get doc "dataProvider" <> VStr n) ->
  _is_ineo_record doc providers' = _is_ineo_record doc providers.
Proof.
  intros Hadd Hother. apply (_add_provider_same _ _ e); [exact Hadd|].
  destruct (Py.is_none (Py.dict_get doc "dataProvider")) eqn:Hnone; [auto|].
  left.
  destruct (Py.eq (Py.dict_get doc "dataProvider")
              (Py.of_str (ET.get e "name"))) eqn:E; [|reflexivity].
  destruct (eq_of_str_true _ _ Hnone E) as (n & Hn & Hv).
  by destruct (Hother n Hn).
Qed.

Lemma added_rule_leaves_other_providers_witness :
  _is_ineo_record Sample.unknown_provider
    {| Providers.default := false;
       Providers.providers :=
         [Sample.tla; Sample.dans; Sample.meertens;
          {| Provider.name := None; Provider.profile := None;
             Provider.level := None; Provider.default := Some true |}];
       Providers.provider_keys :=
         [Some "The Language Archive"; Some "DANS"; Some "Meertens"; None] |}
  = _is_ineo_record Sample.unknown_provider Sample.mapping.
Proof.
  apply (added_rule_leaves_other_providers Sample.mapping _
           (mkElement "provider" ∅ None [Sample.leaf "default" "true"])
           Sample.unknown_provider).
  - vm_compute. reflexivity.
  - intros n Hn. vm_compute in Hn. discriminate.
Defined.

(** X9. Adding a rule under a name the registry already has changes the
    resolution of no record: with [get_provider] the first rule of a name,
    the earlier rule keeps deciding. *)
Theorem added_duplicate_rule_is_ignored (providers providers' : Providers.t)
    (e : Element) (n : string) :
  well_formed providers ->
  ET.get e "name" = Some n ->
  Some n ∈ Providers.provider_keys providers ->
  _add_provider providers e = Ok providers' ->
  forall doc, _is_ineo_record doc providers' = _is_ineo_record doc providers.
Proof.
  intros Hwf Hname Hin Hadd doc.
  apply (_add_provider_same _ _ e); [exact Hadd|].
  destruct (Py.is_none (Py.dict_get doc "dataProvider")) eqn:Hnone; [auto|].
  destruct (Py.eq (Py.dict_get doc "dataProvider")
              (Py.of_str (ET.get e "name"))) eqn:E; [|auto].
  right. right.
  destruct (eq_of_str_true _ _ Hnone E) as (n' & Hn' & Hv).
  rewrite Hname in Hn'. injection Hn' as <-.
  assert (Hc : Py.contains (Py.dict_get doc "dataProvider")
                 (Py.of_str <$> Providers.provider_keys providers) = true).
  { unfold Py.contains. apply existsb_exists. exists (VStr n). split.
    - apply list_elem_of_In, list_elem_of_fmap. exists (Some n). by split.
    - rewrite Hv. simpl. apply String.eqb_refl. }
  split; [|exact Hc].
  rewrite (contains_get_provider _ _ Hwf) in Hc.
  by apply bool_decide_eq_true in Hc.
Qed.

Lemma added_duplicate_rule_is_ignored_witness :
  _is_ineo_record Sample.other_level
    {| Providers.default := false;
       Providers.providers :=
         [Sample.tla; Sample.dans; Sample.meertens;
          {| Provider.name := Some "DANS"; Provider.profile := None;
             Provider.level := None; Provider.default := Some false |}];
       Providers.provider_keys :=
         [Some "The Language Archive"; Some "DANS"; Some "Meertens";
          Some "DANS"] |}
  = _is_ineo_record Sample.other_level Sample.mapping.
Proof.
  apply (added_duplicate_rule_is_ignored Sample.mapping _
           (mkElement "root" {[ "name" := "DANS" ]} None
              [Sample.leaf "default" "false"]) "DANS").
  - reflexivity.
  - vm_compute. reflexivity.
  - vm_compute. apply list_elem_of_In. simpl. auto.
  - vm_compute. reflexivity.
Defined.

(** ** The labeling pass as a map *)

Lemma decided_app (b : bool) (batch1 batch2 : list UpdateDoc.t) :
  decided b (batch1 ++ batch2) = decided b batch1 + decided b batch2.
Proof.
  unfold decided. rewrite List.filter_app, length_app. lia.
Qed.

Lemma decided_total (batch : list UpdateDoc.t) :
  decided true batch + decided false batch = Z.of_nat (length batch).
Proof.
  unfold decided. induction batch as [|u batch IH]; [reflexivity|].
  cbn [List.filter]. destruct (UpdateDoc.ineo_record u); simpl in *; lia.
Qed.

Lemma tally_tally (st : labeling) (batch1 batch2 : list UpdateDoc.t) :
  tally (tally st batch1) batch2 = tally st (batch1 ++ batch2).
Proof.
  unfold tally. cbn [good bad payload]. rewrite !decided_app.
  f_equal; [lia|lia|by rewrite app_assoc].
Qed.

Lemma label_one_tally (mapping : Providers.t) (st : labeling)
    (doc : gmap string value) :
  label_one mapping st doc = (u <- label_doc mapping doc; Ok (tally st [u])).
Proof.
  unfold label_one, label_doc.
  destruct (Py.dict_item doc "id") as [i|]; [|reflexivity]. simpl.
  destruct (_is_ineo_record doc mapping) as [[]|]; [| |reflexivity];
    simpl; unfold tally, decided; simpl; by rewrite Z.add_0_r.
Qed.

(** The loop of [_label_ineo_records] from any state: the entries are
    those of the map, the counters count them. *)
Lemma label_loop_from (mapping : Providers.t) (docs : list (gmap string value)) :
  forall st,
    for_each docs (label_one mapping) st
    = (batch <- map_result (label_doc mapping) docs; Ok (tally st batch)).
Proof.
  induction docs as [|doc docs IH]; intros st.
  - simpl. destruct st as [g b p]. unfold tally, decided. simpl.
    by rewrite !Z.add_0_r, app_nil_r.
  - cbn [for_each map_result]. rewrite label_one_tally.
    destruct (label_doc mapping doc) as [u|]; [|reflexivity].
    cbn [Py.bind]. rewrite IH.
    destruct (map_result (label_doc mapping) docs) as [batch|];
      [|reflexivity].
    cbn [Py.bind]. by rewrite tally_tally.
Qed.

Lemma _label_ineo_records_map (mapping : Providers.t)
    (docs : list (gmap string value)) :
  _label_ineo_records docs mapping = map_result (label_doc mapping) docs.
Proof.
  unfold _label_ineo_records, label_loop. rewrite label_loop_from.
  destruct (map_result (label_doc mapping) docs); reflexivity.
Qed.

Lemma label_doc_labels (mapping : Providers.t) (doc : gmap string value)
    (u : UpdateDoc.t) :
  label_doc mapping doc = Ok u <-> labels mapping doc u.
Proof.
  unfold label_doc, labels, Py.dict_item. destruct u as [i b]. simpl.
  destruct (doc !! "id") as [i'|]; simpl.
  - destruct (_is_ineo_record doc mapping) as [b'|]; simpl.
    + split; [intros [= -> ->]; done|intros [[= ->] [= ->]]; done].
    + split; [discriminate|intros [_ ?]; discriminate].
  - split; [discriminate|intros [? _]; discriminate].
Qed.

Lemma map_result_Forall2 {A B} (f : A -> result B) (l : list A) :
  forall k, map_result f l = Ok k <-> Forall2 (fun x y => f x = Ok y) l k.
Proof.
  induction l as [|x l IH]; intros k; simpl.
  - split; [intros [= <-]; constructor|intros H; by inversion H].
  - destruct (f x) as [y|e] eqn:E; simpl.
    + destruct (map_result f l) as [ys|e'] eqn:E'; simpl.
      * split.
        -- intros [= <-]. constructor; [exact E|by apply IH].
        -- intros H. inversion H as [|? y' ? k' Hy Hk]; subst.
           apply IH in Hk. congruence.
      * split; [discriminate|].
        intros H. inversion H as [|? y' ? k' Hy Hk]; subst.
        apply IH in Hk. discriminate.
    + split; [discriminate|].
      intros H. inversion H; subst. congruence.
Qed.

Lemma map_result_app {A B} (f : A -> result B) (l1 l2 : list A) :
  map_result f (l1 ++ l2)
  = (k1 <- map_result f l1; k2 <- map_result f l2; Ok (k1 ++ k2)).
Proof.
  induction l1 as [|x l1 IH]; simpl.
  - by destruct (map_result f l2).
  - destruct (f x); [|reflexivity]. simpl. rewrite IH.
    destruct (map_result f l1); [|reflexivity]. simpl.
    by destruct (map_result f l2).
Qed.

(** X10. The labeling pass returns a batch exactly when every record has
    an [id] and resolves, and the batch then has one entry per record, in
    the records' order, carrying the record's [id] and the resolver's
    decision for it. *)
Theorem _label_ineo_records_entries (docs : list (gmap string value))
    (mapping : Providers.t) (batch : list UpdateDoc.t) :
  _label_ineo_records docs mapping = Ok batch
  <-> Forall2 (labels mapping) docs batch.
Proof.
  rewrite _label_ineo_records_map, map_result_Forall2.
  split; intros H; eapply Forall2_impl; try exact H;
    intros doc u; apply label_doc_labels.
Qed.

(** X11. The counters of the labeling loop count the batch: when the
    loop ends, [good] is the number of entries labeled [True], [bad] the
    number labeled [False], and together they are the number of records. *)
Theorem label_loop_counters (docs : list (gmap string value))
    (mapping : Providers.t) (st : labeling) :
  label_loop docs mapping = Ok st ->
  good st = decided true (payload st)
  /\ bad st = decided false (payload st)
  /\ good st + bad st = Z.of_nat (length docs)
  /\ length (payload st) = length docs.
Proof.
  unfold label_loop. rewrite label_loop_from.
  destruct (map_result (label_doc mapping) docs) as [batch|] eqn:E;
    [|discriminate].
  intros [= <-]. cbn [tally good bad payload app].
  apply map_result_Forall2, Forall2_length in E.
  rewrite !Z.add_0_l, decided_total.
  repeat split; congruence.
Qed.

Lemma label_loop_counters_witness :
  exists st,
    label_loop [Sample.level_as_int; Sample.level_as_string;
                Sample.unknown_provider] Sample.mapping = Ok st
    /\ good st = 1 /\ bad st = 2.
Proof.
  eexists. split; [vm_compute; reflexivity|].
  destruct (label_loop_counters
              [Sample.level_as_int; Sample.level_as_string;
               Sample.unknown_provider] Sample.mapping _
              ltac:(vm_compute; reflexivity)) as (Hg & Hb & _).
  split; [exact Hg|exact Hb].
Defined.

(** On a well-formed registry a record resolves exactly when its
    [dataProvider] is there. *)
Lemma resolves_iff (doc : gmap string value) (mapping : Providers.t) :
  well_formed mapping ->
  (exists b : bool, _is_ineo_record doc mapping = Ok b)
  <-> ~ missing doc "dataProvider".
Proof.
  intros Hwf. rewrite (_is_ineo_record_steps _ _ Hwf), <- is_none_dict_get.
  destruct (Py.is_none (Py.dict_get doc "dataProvider")).
  - split; [intros [b H]; discriminate|intros H; by destruct H].
  - split; [discriminate|intros _].
    destruct (Providers.get_provider mapping _) as [rule|]; [|eauto].
    destruct (profile_test _ rule); [eauto|].
    destruct (level_test _ rule); [eauto|].
    destruct (Provider.default rule); eauto.
Qed.

Lemma map_result_ok_iff {A B} (f : A -> result B) (l : list A) :
  (exists k, map_result f l = Ok k) <-> Forall (fun x => exists y, f x = Ok y) l.
Proof.
  induction l as [|x l IH]; simpl.
  - split; [constructor|eauto].
  - rewrite Forall_cons, <- IH.
    destruct (f x) as [y|e]; simpl.
    + destruct (map_result f l) as [ys|e']; simpl.
      * split; eauto.
      * split; [intros [? ?]; discriminate|].
        intros (_ & [? ?]). discriminate.
    + split; [intros [? ?]; discriminate|].
      intros ([? ?] & _). discriminate.
Qed.

Lemma label_doc_ok_iff (mapping : Providers.t) (doc : gmap string value) :
  well_formed mapping ->
  (exists u, label_doc mapping doc = Ok u)
  <-> is_Some (doc !! "id") /\ ~ missing doc "dataProvider".
Proof.
  intros Hwf. rewrite <- (resolves_iff _ _ Hwf). split.
  - intros [u Hu]. apply label_doc_labels in Hu as [Hid Hres]. eauto.
  - intros [[i Hi] [b Hb]]. exists (UpdateDoc.mk i b).
    by apply label_doc_labels.
Qed.

(** X12. On a registry built by the parser, the labeling pass returns a
    batch exactly when every record has an [id] and a [dataProvider]; one
    record without either makes the whole pass raise. *)
Theorem _label_ineo_records_succeeds_iff (docs : list (gmap string value))
    (mapping : Providers.t) :
  well_formed mapping ->
  (exists batch, _label_ineo_records docs mapping = Ok batch)
  <-> Forall (fun doc => is_Some (doc !! "id")
                         /\ ~ missing doc "dataProvider") docs.
Proof.
  intros Hwf. rewrite _label_ineo_records_map, map_result_ok_iff.
  split; intros H; eapply Forall_impl; try exact H;
    intros doc; apply (label_doc_ok_iff _ _ Hwf).
Qed.

Lemma _label_ineo_records_succeeds_iff_witness :
  exists batch,
    _label_ineo_records [Sample.level_as_int; Sample.unknown_provider]
      Sample.mapping = Ok batch.
Proof.
  apply (_label_ineo_records_succeeds_iff
           [Sample.level_as_int; Sample.unknown_provider] Sample.mapping).
  - reflexivity.
  - repeat constructor; try (vm_compute; eauto; fail);
      intros [H|H]; vm_compute in H; discriminate.
Defined.

(** X13. A record without [id] makes the labeling pass raise a
    [KeyError] once the records before it are labeled, before the record is
    resolved: also when its [dataProvider] is missing as well. *)
Theorem missing_id_raises_key_error
    (before after : list (gmap string value)) (doc : gmap string value)
    (mapping : Providers.t) (batch : list UpdateDoc.t) :
  _label_ineo_records before mapping = Ok batch ->
  doc !! "id" = None ->
  _label_ineo_records (before ++ doc :: after) mapping = Raise KeyError.
Proof.
  rewrite !_label_ineo_records_map, map_result_app. intros -> Hid.
  simpl. unfold label_doc, Py.dict_item. rewrite Hid. reflexivity.
Qed.

Lemma missing_id_raises_key_error_witness :
  _label_ineo_records
    ([Sample.level_as_int] ++ (∅ : gmap string value)
       :: [Sample.with_profile])
    Sample.mapping = Raise KeyError.
Proof.
  apply (missing_id_raises_key_error [Sample.level_as_int]
           [Sample.with_profile] ∅ Sample.mapping
           [UpdateDoc.mk (VStr "r2") true]).
  - vm_compute. reflexivity.
  - reflexivity.
Defined.

(** X14. Labeling two record lists one after the other is labeling each
    and joining the batches: an entry depends on its own record only, and
    the first list's exception, if any, comes first. *)
Theorem _label_ineo_records_app (docs1 docs2 : list (gmap string value))
    (mapping : Providers.t) :
  _label_ineo_records (docs1 ++ docs2) mapping
  = (batch1 <- _label_ineo_records docs1 mapping;
     batch2 <- _label_ineo_records docs2 mapping;
     Ok (batch1 ++ batch2)).
Proof. rewrite !_label_ineo_records_map. apply map_result_app. Qed.

(** ** Fetching, for any number of records *)

Lemma submit_all_sent (query : string) (solr : Solr) (starts : list Z) :
  fst (submit_all (fun start => _fetch_solr_records query solr start 10000)
                  starts)
  = (fun start => GET_select query start 10000) <$> starts.
Proof.
  unfold submit_all. cbn [fst].
  induction starts as [|start starts IH]; [reflexivity|].
  rewrite !fmap_cons. cbn [concat _fetch_solr_records fst app].
  f_equal. exact IH.
Qed.

Lemma submit_all_futures (query : string) (solr : Solr) (starts : list Z) :
  snd (submit_all (fun start => _fetch_solr_records query solr start 10000)
                  starts)
  = (fun start => select solr query start 10000) <$> starts.
Proof.
  unfold submit_all. cbn [snd].
  induction starts as [|start starts IH]; [reflexivity|].
  rewrite !fmap_cons. cbn [_fetch_solr_records snd].
  f_equal. exact IH.
Qed.

(** The fetch once the zero-row request is answered. *)
Lemma fetch_solr_records_pages (query : string) (solr : Solr)
    (completed : list (result response) -> list (result response))
    (r : response) :
  select solr query 0 0 = Ok r ->
  fetch_solr_records query solr completed
  = (GET_select query 0 0 :: page_requests query (numFound r),
     for_each (completed ((fun start => select solr query start 10000)
                            <$> Py.range 0 (numFound r) 10000))
              extend_with []).
Proof.
  intros H. unfold fetch_solr_records, io_bind.
  unfold _fetch_solr_records at 1. rewrite H.
  pose proof (submit_all_sent query solr (Py.range 0 (numFound r) 10000))
    as Hsent.
  pose proof (submit_all_futures query solr (Py.range 0 (numFound r) 10000))
    as Hfut.
  destruct (submit_all _ (Py.range 0 (numFound r) 10000)) as [sent futures].
  cbn [fst snd] in Hsent, Hfut. subst. reflexivity.
Qed.

Lemma range_lookup (stop step : Z) (i : nat) (start : Z) :
  Py.range 0 stop step !! i = Some start -> start = Z.of_nat i * step.
Proof.
  unfold Py.range. rewrite list_lookup_fmap. intros H.
  destruct (seqZ 0 _ !! i) as [j|] eqn:E; [|discriminate].
  apply lookup_seqZ in E as [-> _]. injection H as <-. lia.
Qed.

(** X15. Once the zero-row request is answered, the requests the fetch
    sends depend on [numFound] alone: one page request for each multiple of
    10000 below [numFound], each asking for 10000 rows, that is
    [numFound / 10000] rounded up in all; whether a page fails does not
    change which requests are sent. *)
Theorem fetch_solr_records_requests (query : string) (solr : Solr)
    (completed : list (result response) -> list (result response))
    (r : response) :
  select solr query 0 0 = Ok r ->
  fst (fetch_solr_records query solr completed)
  = GET_select query 0 0 :: page_requests query (numFound r)
  /\ length (page_requests query (numFound r))
     = Z.to_nat ((numFound r + 9999) `div` 10000)
  /\ forall i req, page_requests query (numFound r) !! i = Some req ->
                   req = GET_select query (Z.of_nat i * 10000) 10000.
Proof.
  intros H. rewrite (fetch_solr_records_pages _ _ _ _ H). cbn [fst].
  split; [reflexivity|]. unfold page_requests. split.
  - unfold Py.range. rewrite !length_fmap, length_seqZ.
    by replace (numFound r - 0 + 10000 - 1) with (numFound r + 9999) by lia.
  - intros i req. rewrite list_lookup_fmap. intros Hreq.
    destruct (Py.range 0 (numFound r) 10000 !! i) as [start|] eqn:E;
      [|discriminate].
    apply range_lookup in E. injection Hreq as <-. by rewrite E.
Qed.

Lemma fetch_solr_records_requests_witness :
  fst (fetch_solr_records "*:*"
         (index_of (replicate (Z.to_nat 10001) Sample.level_as_int))
         (fun futures => futures))
  = GET_select "*:*" 0 0
    :: page_requests "*:*"
         (Z.of_nat (length (replicate (Z.to_nat 10001) Sample.level_as_int))).
Proof.
  apply (fetch_solr_records_requests "*:*"
           (index_of (replicate (Z.to_nat 10001) Sample.level_as_int))
           (fun futures => futures)
           {| numFound := Z.of_nat (length (replicate (Z.to_nat 10001)
                                              Sample.level_as_int));
              docs := take (Z.to_nat 0)
                        (drop (Z.to_nat 0)
                           (replicate (Z.to_nat 10001) Sample.level_as_int)) |}).
  reflexivity.
Defined.

(** X16. When nothing is found, the zero-row request is the only request
    and the fetch returns the empty list. *)
Theorem fetch_solr_records_nothing_found (query : string) (solr : Solr)
    (completed : list (result response) -> list (result response))
    (r : response) :
  select solr query 0 0 = Ok r ->
  numFound r <= 0 ->
  (forall futures, completed futures ≡ₚ futures) ->
  fetch_solr_records query solr completed = ([GET_select query 0 0], Ok []).
Proof.
  intros H Hn Hperm. rewrite (fetch_solr_records_pages _ _ _ _ H).
  unfold page_requests, Py.range.
  rewrite seqZ_nil by (Z.div_mod_to_equations; lia). simpl.
  pose proof (Hperm []) as Hnil. apply Permutation_nil_r in Hnil.
  by rewrite Hnil.
Qed.

Lemma fetch_solr_records_nothing_found_witness :
  fetch_solr_records "*:*" (index_of []) (fun futures => futures)
  = ([GET_select "*:*" 0 0], Ok []).
Proof.
  apply (fetch_solr_records_nothing_found "*:*" (index_of [])
           (fun futures => futures) {| numFound := 0; docs := [] |}).
  - reflexivity.
  - simpl. lia.
  - intros futures. reflexivity.
Defined.

Lemma chunks (all : list (gmap string value)) (step : Z) (k : nat) :
  0 < step ->
  concat ((fun start => take (Z.to_nat step) (drop (Z.to_nat start) all))
            <$> ((fun i => 0 + i * step) <$> seqZ 0 (Z.of_nat k)))
  = take (k * Z.to_nat step) all.
Proof.
  intros Hstep. induction k as [|k IH].
  - rewrite seqZ_nil by lia. simpl. by rewrite take_0.
  - rewrite seqZ_S, !fmap_app, concat_app, IH. simpl.
    rewrite app_nil_r.
    replace (Z.to_nat (0 + (0 + Z.of_nat k) * step))
      with (k * Z.to_nat step)%nat
      by (rewrite !Z.add_0_l, Z2Nat.inj_mul, Nat2Z.id by lia; reflexivity).
    rewrite take_take_drop. f_equal. lia.
Qed.

(** The pages of an index that answers with the slice asked for, in the
    order they are asked, make up the index. *)
Lemma pages_cover (all : list (gmap string value)) :
  concat ((fun start => take (Z.to_nat 10000) (drop (Z.to_nat start) all))
            <$> Py.range 0 (Z.of_nat (length all)) 10000)
  = all.
Proof.
  unfold Py.range.
  set (k := (Z.of_nat (length all) - 0 + 10000 - 1) `div` 10000).
  assert (Hk : 0 <= k /\ Z.of_nat (length all) <= k * 10000)
    by (unfold k; Z.div_mod_to_equations; lia).
  rewrite <- (Z2Nat.id k) by lia.
  rewrite chunks by lia. apply take_ge. lia.
Qed.

(** The fetch over an index that answers with the slice asked for. *)
Lemma fetch_solr_records_over_index (query : string) (solr : Solr)
    (all : list (gmap string value))
    (completed : list (result response) -> list (result response)) :
  (forall start rows,
     select solr query start rows = select (index_of all) query start rows) ->
  (forall futures, completed futures ≡ₚ futures) ->
  exists records,
    fetch_solr_records query solr completed
    = (GET_select query 0 0
         :: page_requests query (Z.of_nat (length all)),
       Ok records)
    /\ records ≡ₚ all.
Proof.
  intros Hsel Hperm.
  rewrite (fetch_solr_records_pages query solr completed
             {| numFound := Z.of_nat (length all);
                docs := take (Z.to_nat 0) (drop (Z.to_nat 0) all) |})
    by (rewrite Hsel; reflexivity).
  cbn [numFound].
  set (page := fun start =>
         {| numFound := Z.of_nat (length all);
            docs := take (Z.to_nat 10000) (drop (Z.to_nat start) all) |}).
  assert (Hfut : (fun start => select solr query start 10000)
                   <$> Py.range 0 (Z.of_nat (length all)) 10000
                 = Ok <$> (page <$> Py.range 0 (Z.of_nat (length all)) 10000)).
  { rewrite <- list_fmap_compose. apply list_fmap_ext.
    intros i start _. rewrite Hsel. reflexivity. }
  rewrite Hfut.
  destruct (completed_pages completed
              (page <$> Py.range 0 (Z.of_nat (length all)) 10000) Hperm)
    as (rs' & -> & Hrs').
  rewrite for_each_extend_with. eexists. split; [reflexivity|].
  rewrite Hrs', <- list_fmap_compose. simpl. apply reflexive_eq.
  apply pages_cover.
Qed.

(** X17. Over an index that answers every request with the slice asked
    for, the fetch returns every record of the index exactly once, for any
    number of records and whatever order the pages arrive in; the order of
    the result is that of the pages' arrival. *)
Theorem fetch_solr_records_complete (query : string) (solr : Solr)
    (all : list (gmap string value))
    (completed : list (result response) -> list (result response)) :
  (forall start rows,
     select solr query start rows = select (index_of all) query start rows) ->
  (forall futures, completed futures ≡ₚ futures) ->
  exists records,
    snd (fetch_solr_records query solr completed) = Ok records
    /\ records ≡ₚ all.
Proof.
  intros Hsel Hperm.
  destruct (fetch_solr_records_over_index _ _ _ _ Hsel Hperm)
    as (records & -> & Hrecords).
  eauto.
Qed.

Lemma fetch_solr_records_complete_witness :
  exists records,
    snd (fetch_solr_records "*:*"
           (index_of [Sample.level_as_int; Sample.with_profile]) reverse)
    = Ok records
    /\ records ≡ₚ [Sample.level_as_int; Sample.with_profile].
Proof.
  apply (fetch_solr_records_complete "*:*"
           (index_of [Sample.level_as_int; Sample.with_profile])
           [Sample.level_as_int; Sample.with_profile] reverse).
  - intros start rows. reflexivity.
  - intros futures. apply reverse_Permutation.
Defined.

Lemma for_each_extend_with_raises (futures : list (result response))
    (e : exn) :
  Raise e ∈ futures ->
  forall records, exists e', for_each futures extend_with records = Raise e'.
Proof.
  induction futures as [|f futures IH]; intros Hin records.
  - by apply not_elem_of_nil in Hin.
  - destruct f as [r|e0]; simpl; [|eauto].
    apply elem_of_cons in Hin as [Hin|Hin]; [discriminate|].
    by apply IH.
Qed.

(** X18. One failing page request makes the whole fetch raise, whatever
    order the pages arrive in: records of the pages that did arrive are
    never returned as if they were all. *)
Theorem fetch_solr_records_page_failure (query : string) (solr : Solr)
    (completed : list (result response) -> list (result response))
    (r : response) (start : Z) (e : exn) :
  select solr query 0 0 = Ok r ->
  start ∈ Py.range 0 (numFound r) 10000 ->
  select solr query start 10000 = Raise e ->
  (forall futures, completed futures ≡ₚ futures) ->
  exists e', snd (fetch_solr_records query solr completed) = Raise e'.
Proof.
  intros H Hstart He Hperm.
  rewrite (fetch_solr_records_pages _ _ _ _ H). cbn [snd].
  apply (for_each_extend_with_raises _ e).
  rewrite Hperm. apply list_elem_of_fmap. exists start. by split.
Qed.

Lemma fetch_solr_records_page_failure_witness :
  exists e',
    snd (fetch_solr_records "*:*"
           {| select := fun _ start rows =>
                if Z.eqb rows 0 then Ok {| numFound := 5; docs := [] |}
                else Raise HTTPError;
              update := fun _ => Ok tt |}
           (fun futures => futures))
    = Raise e'.
Proof.
  apply (fetch_solr_records_page_failure "*:*" _ (fun futures => futures)
           {| numFound := 5; docs := [] |} 0 HTTPError).
  - reflexivity.
  - vm_compute. apply list_elem_of_In. simpl. auto.
  - reflexivity.
  - intros futures. reflexivity.
Defined.

(** ** The whole run *)

Lemma fetch_solr_records_sends_selects (query : string) (solr : Solr)
    (completed : list (result response) -> list (result response))
    (doc : UpdateDoc.t) :
  POST_update doc ∉ fst (fetch_solr_records query solr completed).
Proof.
  destruct (select solr query 0 0) as [r|e] eqn:E.
  - rewrite (fetch_solr_records_pages _ _ _ _ E). cbn [fst].
    unfold page_requests. intros H.
    apply elem_of_cons in H as [H|H]; [discriminate|].
    apply list_elem_of_fmap in H as (start & H & _). discriminate.
  - unfold fetch_solr_records, io_bind, _fetch_solr_records. rewrite E.
    cbn [fst]. intros H. apply list_elem_of_singleton in H. discriminate.
Qed.

(** X19. Updates are sent only when every record was fetched and
    labeled: if [label_ineo_records] raises, because a request of the fetch
    failed or because one record could not be labeled, it has sent no
    update at all. *)
Theorem label_ineo_records_raises_without_updates (query : string)
    (solr : Solr) (mapping : Providers.t)
    (completed : list (result response) -> list (result response))
    (e : exn) (doc : UpdateDoc.t) :
  snd (label_ineo_records query solr mapping completed) = Raise e ->
  POST_update doc ∉ fst (label_ineo_records query solr mapping completed).
Proof.
  unfold label_ineo_records.
  pose proof (fetch_solr_records_sends_selects query solr completed doc)
    as Hsent.
  destruct (fetch_solr_records query solr completed) as [sent [docs|e0]];
    cbn [fst] in Hsent; unfold io_bind at 1; [|intros _; exact Hsent].
  unfold io_lift, io_bind.
  destruct (_label_ineo_records docs mapping) as [batch|e1].
  - destruct (update_futures solr batch). discriminate.
  - intros _. cbn [fst]. by rewrite app_nil_r.
Qed.

Lemma label_ineo_records_raises_without_updates_witness :
  POST_update (UpdateDoc.mk (VStr "r2") true)
  ∉ fst (label_ineo_records "*:*"
           (index_of [Sample.level_as_int; Sample.no_provider])
           Sample.mapping (fun futures => futures)).
Proof.
  apply (label_ineo_records_raises_without_updates "*:*"
           (index_of [Sample.level_as_int; Sample.no_provider])
           Sample.mapping (fun futures => futures) ValueError).
  vm_compute. reflexivity.
Defined.

(** X20. The mapping comes first: when the mapping cannot be fetched or
    decoded, or the parser raises on it, [main] raises that exception
    without having sent any request to the index. *)
Theorem main_mapping_failure (mapping_file : result Element) (solr : Solr)
    (completed : list (result response) -> list (result response))
    (e : exn) :
  mapping_file = Raise e
  \/ (exists mapping_tree,
        mapping_file = Ok mapping_tree
        /\ parse_mapping_file mapping_tree = Raise e) ->
  main mapping_file solr completed = ([], Raise e).
Proof.
  intros [->|(mapping_tree & -> & H)]; unfold main, io_lift, io_bind;
    [reflexivity|].
  rewrite H. reflexivity.
Qed.

Lemma main_mapping_failure_witness :
  main (Ok (mkElement "datasets" ∅ None
              [mkElement "root" {[ "name" := "X" ]} None
                 [Sample.leaf "level" "top"]]))
       (index_of [Sample.level_as_int]) (fun futures => futures)
  = ([], Raise ValueError).
Proof.
  apply main_mapping_failure. right. eexists. split; [reflexivity|].
  vm_compute. reflexivity.
Defined.

(** X21. A whole run that goes well: when the mapping parses, the index
    answers every request with the slice asked for, and every record has an
    [id] and a [dataProvider], [main] ends normally having sent the
    zero-row request, the page requests, and then one update for each
    record of the index, each carrying the record's [id] and the decision
    of the resolver under the parsed registry. *)
Theorem main_labels_every_record (mapping_tree : Element)
    (mapping : Providers.t) (solr : Solr) (all : list (gmap string value))
    (completed : list (result response) -> list (result response)) :
  parse_mapping_file mapping_tree = Ok mapping ->
  (forall start rows,
     select solr "*:*" start rows = select (index_of all) "*:*" start rows) ->
  (forall futures, completed futures ≡ₚ futures) ->
  Forall (fun doc => is_Some (doc !! "id")
                     /\ ~ missing doc "dataProvider") all ->
  exists docs batch,
    docs ≡ₚ all
    /\ Forall2 (labels mapping) docs batch
    /\ main (Ok mapping_tree) solr completed
       = (GET_select "*:*" 0 0
            :: page_requests "*:*" (Z.of_nat (length all))
            ++ (POST_update <$> batch),
          Ok tt).
Proof.
  intros Hparse Hsel Hperm Hall.
  pose proof (parse_mapping_file_well_formed _ _ Hparse) as Hwf.
  destruct (fetch_solr_records_over_index _ _ _ _ Hsel Hperm)
    as (docs & Hfetch & Hdocs).
  assert (Hok : exists batch, map_result (label_doc mapping) docs = Ok batch).
  { apply map_result_ok_iff. rewrite Hdocs.
    eapply Forall_impl; [exact Hall|].
    intros doc. apply (label_doc_ok_iff _ _ Hwf). }
  destruct Hok as [batch Hbatch].
  exists docs, batch. split; [exact Hdocs|]. split.
  - apply map_result_Forall2 in Hbatch.
    eapply Forall2_impl; [exact Hbatch|].
    intros doc u. apply label_doc_labels.
  - unfold main, io_lift. unfold io_bind at 1. rewrite Hparse.
    unfold io_bind at 1. unfold label_ineo_records.
    rewrite Hfetch. unfold io_bind at 1.
    rewrite _label_ineo_records_map, Hbatch. unfold io_lift, io_bind.
    pose proof (update_futures_sent solr batch) as Hsent.
    destruct (update_futures solr batch) as [sent' futures].
    cbn [fst] in Hsent. rewrite Hsent. reflexivity.
Qed.

Lemma main_labels_every_record_witness :
  exists docs batch,
    docs ≡ₚ [Sample.level_as_int; Sample.unknown_provider]
    /\ Forall2 (labels Sample.mapping) docs batch
    /\ main (Ok Sample.mapping_tree)
         (index_of [Sample.level_as_int; Sample.unknown_provider]) reverse
       = (GET_select "*:*" 0 0
            :: page_requests "*:*"
                 (Z.of_nat (length [Sample.level_as_int;
                                    Sample.unknown_provider]))
            ++ (POST_update <$> batch),
          Ok tt).
Proof.
  apply (main_labels_every_record Sample.mapping_tree Sample.mapping
           (index_of [Sample.level_as_int; Sample.unknown_provider])
           [Sample.level_as_int; Sample.unknown_provider] reverse).
  - vm_compute. reflexivity.
  - intros start rows. reflexivity.
  - intros futures. apply reverse_Permutation.
  - repeat constructor; try (vm_compute; eauto; fail);
      intros [H|H]; vm_compute in H; discriminate.
Defined.
